(** * Google Drive MCP server (src/index.ts): request handlers and credentials

    A shallow embedding of the four protocol handlers and of the credential
    bootstrap of [src/index.ts], and the properties of the specification
    checked against it.

    Conventions.
    - A JavaScript string is a [string]; a character is one code unit.
    - A value that may be [undefined] is an [option]; a JavaScript object
      used as a dictionary ([process.env], the tool arguments) is a
      [gmap string _].
    - The Drive client, the file system, the clock and the library codecs
      are parameters of the sections that use them. *)

From Stdlib Require Import String Ascii List ZArith Lia Bool.
From Stdlib Require Import Numbers.DecimalString.
From stdpp Require Import base option gmap strings.

Import ListNotations.
Local Open Scope string_scope.
Local Open Scope list_scope.

(** ** JavaScript primitives used by the handlers *)

Module JS.

(** The line feed of a template literal. *)
Definition nl : string := String (ascii_of_nat 10) EmptyString.

(** Truthiness of a string: every string but the empty one. *)
Definition truthy_str (s : string) : bool :=
  match s with
  | EmptyString => false
  | String _ _ => true
  end.

(** Truthiness of a possibly undefined string. *)
Definition truthy (v : option string) : bool :=
  match v with
  | None => false
  | Some s => truthy_str s
  end.

(** [v || d] for a possibly undefined string [v] and a string [d]. *)
Definition or_else (v : option string) (d : string) : string :=
  match v with
  | Some s => if truthy_str s then s else d
  | None => d
  end.

(** [`${v}`]: an undefined value is spelled out. *)
Definition interp (v : option string) : string :=
  match v with
  | Some s => s
  | None => "undefined"
  end.

(** [s.startsWith(p)]. *)
Definition startsWith (s p : string) : bool := String.prefix p s.

(** [s.replace(/c/g, r)] for a one-character pattern [c] and a replacement
    [r] without dollar patterns: every occurrence of [c] becomes [r]. *)
Fixpoint replace_all (c : ascii) (r : string) (s : string) : string :=
  match s with
  | EmptyString => EmptyString
  | String a s' =>
      if Ascii.eqb a c then r +:+ replace_all c r s'
      else String a (replace_all c r s')
  end.

(** Dropping the first [n] characters. *)
Fixpoint drop_str (n : nat) (s : string) : string :=
  match n, s with
  | O, _ => s
  | S n', String _ s' => drop_str n' s'
  | S _, EmptyString => EmptyString
  end.

(** [s.replace(p, r)] for a string pattern [p]: only the first
    occurrence of [p], scanning from the left, is replaced. *)
Fixpoint replace_first (p r : string) (s : string) : string :=
  if String.prefix p s then r +:+ drop_str (String.length p) s
  else match s with
       | EmptyString => EmptyString
       | String a s' => String a (replace_first p r s')
       end.

(** [`${n}`] for a non-negative integer. *)
Definition of_nat (n : nat) : string :=
  NilEmpty.string_of_uint (Nat.to_uint n).

(** [l.join(sep)]. *)
Definition join (sep : string) (l : list string) : string :=
  String.concat sep l.

End JS.

(** ** The search query (call-tool handler, lines 173-174) *)

Definition backslash : ascii := ascii_of_nat 92.
Definition quote : ascii := ascii_of_nat 39.

(** [userQuery.replace(/\\/g, "\\\\").replace(/'/g, "\\'")]. *)
Definition escapedQuery (userQuery : string) : string :=
  JS.replace_all quote (String backslash (String quote EmptyString))
    (JS.replace_all backslash (String backslash (String backslash EmptyString))
       userQuery).

(** [`fullText contains '${escapedQuery}'`]. *)
Definition formattedQuery (userQuery : string) : string :=
  "fullText contains '" +:+ escapedQuery userQuery +:+ "'".

(** *** What the escaping is meant to achieve *)

(** One character of the query, escaped on its own. *)
Definition escape_char (a : ascii) : string :=
  if Ascii.eqb a backslash then String backslash (String backslash EmptyString)
  else if Ascii.eqb a quote then String backslash (String quote EmptyString)
  else String a EmptyString.

Fixpoint escape_each (s : string) : string :=
  match s with
  | EmptyString => EmptyString
  | String a s' => escape_char a +:+ escape_each s'
  end.

(** How the backend's query language reads a quoted literal once the opening
    quote is consumed: a backslash takes the next character as it is, a bare
    quote ends the literal.  The result is the literal's value and the rest
    of the input; an input that ends inside the literal is not accepted. *)
Fixpoint read_literal (s : string) : option (string * string) :=
  match s with
  | EmptyString => None
  | String a s' =>
      if Ascii.eqb a quote then Some (EmptyString, s')
      else if Ascii.eqb a backslash then
        match s' with
        | EmptyString => None
        | String b s'' =>
            match read_literal s'' with
            | Some (v, rest) => Some (String b v, rest)
            | None => None
            end
        end
      else
        match read_literal s' with
        | Some (v, rest) => Some (String a v, rest)
        | None => None
        end
  end.

(** ** Outcomes of running a piece of the server *)

(** What a JavaScript computation can throw here: [new Error(message)], a
    [TypeError] raised by the runtime, or the rejection of a Drive call. *)
Inductive Exn : Type :=
| Error (message : string)
| TypeError (message : string)
| Rejected (reason : string).

(** A computation returns, throws (a rejected promise, for an async
    function), or ends the process with [process.exit(code)]. *)
Inductive Outcome (A : Type) : Type :=
| Return (a : A)
| Throw (e : Exn)
| Exit (code : Z).

Arguments Return {A} a.
Arguments Throw {A} e.
Arguments Exit {A} code.

(** A failure that is reported to the caller of the request. *)
Definition request_level {A} (o : Outcome A) : bool :=
  match o with
  | Throw _ => true
  | _ => false
  end.

(** A failure that ends the serving process. *)
Definition process_fatal {A} (o : Outcome A) : bool :=
  match o with
  | Exit _ => true
  | _ => false
  end.

(** Computations over a state [S]: the state is the log of Drive calls for
    the handlers, and the console and file system for the start-up code. *)
Definition M (S A : Type) : Type := S -> Outcome A * S.

Definition ret {S A} (a : A) : M S A := fun s => (Return a, s).

Definition throw {S A} (e : Exn) : M S A := fun s => (Throw e, s).

Definition exit {S A} (code : Z) : M S A := fun s => (Exit code, s).

Definition bind {S A B} (c : M S A) (k : A -> M S B) : M S B :=
  fun s =>
    match c s with
    | (Return a, s') => k a s'
    | (Throw e, s') => (Throw e, s')
    | (Exit n, s') => (Exit n, s')
    end.

Notation "x <- c ;; k" := (bind c (fun x => k))
  (at level 100, c at next level, right associativity).
Notation "c ;;; k" := (bind c (fun _ => k))
  (at level 100, right associativity).

(** ** The Drive client *)

(** [drive.files.list] parameters; [None] is a property that is not set. *)
Record ListParams : Type := {
  lp_q : option string;
  lp_pageSize : Z;
  lp_fields : string;
  lp_pageToken : option string;
}.

(** A file of a list reply (the fields the handlers ask for). *)
Record File : Type := {
  f_id : option string;
  f_name : option string;
  f_mimeType : option string;
  f_modifiedTime : option string;
  f_size : option string;
}.

(** [res.data] of [drive.files.list]. *)
Record FileList : Type := {
  fl_files : option (list File);
  fl_nextPageToken : option string;
}.

(** [file.data] of the metadata request [fields: "mimeType"]. *)
Record FileMeta : Type := {
  fm_mimeType : option string;
}.

(** A Drive call resolves with its data or rejects. *)
Inductive Reply (A : Type) : Type :=
| Resolved (data : A)
| Rejects (reason : string).

Arguments Resolved {A} data.
Arguments Rejects {A} reason.

(** The remote directory, as the four calls the handlers make. *)
Record Drive : Type := {
  files_list : ListParams -> Reply FileList;
  files_get : string -> string -> Reply FileMeta;
  files_get_media : string -> Reply (list Byte.byte);
  files_export : string -> string -> Reply string;
}.

(** [Buffer.from(data).toString(encoding)] for the two encodings used. *)
Record Buffer : Type := {
  toString_utf8 : list Byte.byte -> string;
  toString_base64 : list Byte.byte -> string;
}.

(** The calls a handler has sent to Drive, oldest first. *)
Inductive Call : Type :=
| CList (params : ListParams)
| CGet (fileId fields : string)
| CGetMedia (fileId : string)
| CExport (fileId mimeType : string).

Definition Log : Type := list Call.

(** [await] of a Drive call: the call is logged, a rejection is thrown. *)
Definition await {A} (c : Call) (r : Reply A) : M Log A :=
  fun log =>
    match r with
    | Resolved data => (Return data, log ++ [c])
    | Rejects reason => (Throw (Rejected reason), log ++ [c])
    end.

(** ** Protocol messages *)

(** A JSON value of the tool arguments; [JObj] stands for any array or
    object, numbers are the integers. *)
Inductive JSValue : Type :=
| JNull
| JBool (b : bool)
| JNum (n : Z)
| JStr (s : string)
| JObj.

(** Truthiness of an argument that may be undefined. *)
Definition truthy_value (v : option JSValue) : bool :=
  match v with
  | None => false
  | Some JNull => false
  | Some (JBool b) => b
  | Some (JNum n) => negb (Z.eqb n 0)
  | Some (JStr s) => JS.truthy_str s
  | Some JObj => true
  end.

Record ListResourcesParams : Type := {
  cursor : option string;
}.

Record ListResourcesRequest : Type := {
  lr_params : option ListResourcesParams;
}.

Record Resource : Type := {
  r_uri : string;
  r_mimeType : string;
  r_name : string;
}.

Record ListResourcesResult : Type := {
  resources : list Resource;
  nextCursor : option string;
}.

Record ReadResourceRequest : Type := {
  rr_uri : string;
}.

(** One element of [contents]; [None] is a property the object lacks. *)
Record Contents : Type := {
  c_uri : string;
  c_mimeType : string;
  c_text : option string;
  c_blob : option string;
}.

Record ReadResourceResult : Type := {
  contents : list Contents;
}.

Record CallToolRequest : Type := {
  ct_name : string;
  ct_arguments : option (gmap string JSValue);
}.

Record ContentItem : Type := {
  ci_type : string;
  ci_text : string;
}.

Record CallToolResult : Type := {
  content : list ContentItem;
  isError : bool;
}.

(** ** The request handlers *)

Definition family_prefix : string := "application/vnd.google-apps".

(** The [switch] of the read handler (lines 76-91); each [case] compares
    with [===], and an undefined value takes the [default]. *)
Definition exportMimeType (mimeType : option string) : string :=
  let is_case (label : string) :=
    match mimeType with
    | Some m => String.eqb m label
    | None => false
    end in
  if is_case "application/vnd.google-apps.document" then "text/markdown"
  else if is_case "application/vnd.google-apps.spreadsheet" then "text/csv"
  else if is_case "application/vnd.google-apps.presentation" then "text/plain"
  else if is_case "application/vnd.google-apps.drawing" then "image/png"
  else "text/plain".

(** [file.data.mimeType?.startsWith("application/vnd.google-apps")]. *)
Definition in_family (mimeType : option string) : bool :=
  match mimeType with
  | Some m => JS.startsWith m family_prefix
  | None => false
  end.

(** One line of the search summary (line 183). *)
Definition summary_line (file : File) : string :=
  JS.or_else (f_name file) "Unknown" +:+ " (" +:+
  JS.or_else (f_mimeType file) "Unknown type" +:+ ")".

(** [request.params.arguments?.query]. *)
Definition arguments_query (request : CallToolRequest) : option JSValue :=
  match ct_arguments request with
  | Some args => args !! "query"
  | None => None
  end.

(** The parameters of the search request (lines 176-180). *)
Definition search_params (userQuery : string) : ListParams :=
  {| lp_q := Some (formattedQuery userQuery);
     lp_pageSize := 10;
     lp_fields := "files(id, name, mimeType, modifiedTime, size)";
     lp_pageToken := None |}.

(** [request.params.uri.replace("gdrive:///", "")] (line 64). *)
Definition fileId (uri : string) : string :=
  JS.replace_first "gdrive:///" "" uri.

Section Handlers.

Variable drive : Drive.
Variable buffer : Buffer.

(** The list-resources handler (lines 39-61). *)
Definition listResources (request : ListResourcesRequest)
  : M Log ListResourcesResult :=
  let pageSize := 10%Z in
  let params :=
    {| lp_q := None;
       lp_pageSize := pageSize;
       lp_fields := "nextPageToken, files(id, name, mimeType)";
       lp_pageToken := None |} in
  let request_cursor :=
    match lr_params request with
    | Some p => cursor p
    | None => None
    end in
  let params :=
    if JS.truthy request_cursor then
      {| lp_q := lp_q params;
         lp_pageSize := lp_pageSize params;
         lp_fields := lp_fields params;
         lp_pageToken := request_cursor |}
    else params in
  res <- await (CList params) (files_list drive params) ;;
  let files :=
    match fl_files res with
    | Some fs => fs
    | None => []
    end in
  ret {| resources :=
           List.map
             (fun file =>
                {| r_uri := "gdrive:///" +:+ JS.interp (f_id file);
                   r_mimeType :=
                     JS.or_else (f_mimeType file) "application/octet-stream";
                   r_name := JS.or_else (f_name file) "Unknown" |})
             files;
         nextCursor := fl_nextPageToken res |}.

(** The read-resource handler (lines 63-142). *)
Definition readResource (request : ReadResourceRequest)
  : M Log ReadResourceResult :=
  let fileId := fileId (rr_uri request) in
  file <- await (CGet fileId "mimeType") (files_get drive fileId "mimeType") ;;
  if in_family (fm_mimeType file) then
    let exportMime := exportMimeType (fm_mimeType file) in
    res <- await (CExport fileId exportMime)
                 (files_export drive fileId exportMime) ;;
    ret {| contents :=
             [ {| c_uri := rr_uri request;
                  c_mimeType := exportMime;
                  c_text := Some res;
                  c_blob := None |} ] |}
  else
    res <- await (CGetMedia fileId) (files_get_media drive fileId) ;;
    let mimeType :=
      JS.or_else (fm_mimeType file) "application/octet-stream" in
    if JS.startsWith mimeType "text/"
       || String.eqb mimeType "application/json" then
      ret {| contents :=
               [ {| c_uri := rr_uri request;
                    c_mimeType := mimeType;
                    c_text := Some (toString_utf8 buffer res);
                    c_blob := None |} ] |}
    else
      ret {| contents :=
               [ {| c_uri := rr_uri request;
                    c_mimeType := mimeType;
                    c_text := None;
                    c_blob := Some (toString_base64 buffer res) |} ] |}.

(** The call-tool handler (lines 165-198).  A truthy query that is not a
    string has no [replace] method. *)
Definition callTool (request : CallToolRequest) : M Log CallToolResult :=
  if String.eqb (ct_name request) "search" then
    let userQuery := arguments_query request in
    if negb (truthy_value userQuery) then
      throw (Error "Query parameter is required")
    else
      match userQuery with
      | Some (JStr userQuery) =>
          let params := search_params userQuery in
          res <- await (CList params) (files_list drive params) ;;
          let fileList :=
            match fl_files res with
            | Some files =>
                JS.or_else
                  (Some (JS.join JS.nl (List.map summary_line files))) ""
            | None => ""
            end in
          let count :=
            match fl_files res with
            | Some files => List.length files
            | None => 0
            end in
          ret {| content :=
                   [ {| ci_type := "text";
                        ci_text := "Found " +:+ JS.of_nat count +:+
                                   " files:" +:+ JS.nl +:+ fileList |} ];
                 isError := false |}
      | _ => throw (TypeError "userQuery.replace is not a function")
      end
  else throw (Error "Tool not found").

End Handlers.

(** ** Credentials from the environment (lines 36, 201-238, 297-324) *)

(** [process.env], after [dotenv.config()]. *)
Definition Env : Type := gmap string string.

Record Credentials : Type := {
  access_token : string;
  refresh_token : string;
  scope : string;
  token_type : string;
  expiry_date : Z;
}.

(** The client built by [new google.auth.OAuth2(...)] and given the
    credentials with [setCredentials]. *)
Record OAuth2 : Type := {
  oa_client_id : string;
  oa_client_secret : string;
  oa_redirect : string;
  oa_credentials : Credentials;
}.

(** The five variables a serving process needs. *)
Definition required_variables : list string :=
  [ "GDRIVE_ACCESS_TOKEN"; "GDRIVE_REFRESH_TOKEN"; "GDRIVE_CLIENT_ID";
    "GDRIVE_CLIENT_SECRET"; "GDRIVE_CREDENTIALS_PATH" ].

(** [const credentialsPath = process.env.GDRIVE_CREDENTIALS_PATH]. *)
Definition credentialsPath (env : Env) : option string :=
  env !! "GDRIVE_CREDENTIALS_PATH".

(** [hay.includes(needle)]. *)
Fixpoint includes (hay needle : string) : bool :=
  String.prefix needle hay ||
  match hay with
  | EmptyString => false
  | String _ hay' => includes hay' needle
  end.

(** Some line of the output contains the name. *)
Definition names (output : list string) (variable : string) : bool :=
  List.existsb (fun line => includes line variable) output.

Section Startup.

(** The file system of [fs], [path.dirname] and [JSON.stringify(c, null, 2)].
    A file-system call that throws gives the [message] of the error, if it
    has one, and leaves the files as they were. *)
Variable FS : Type.
Variable existsSync : FS -> string -> bool.
Variable mkdirSync : FS -> string -> FS + option string.
Variable writeFileSync : FS -> string -> string -> FS + option string.
Variable dirname : string -> string.
Variable stringify : Credentials -> string.

(** The process: its files, what it printed, and [Date.now()]. *)
Record World : Type := {
  w_fs : FS;
  w_stdout : list string;
  w_stderr : list string;
  w_now : Z;
}.

Definition console_error (line : string) (w : World) : World :=
  {| w_fs := w_fs w;
     w_stdout := w_stdout w;
     w_stderr := w_stderr w ++ [line];
     w_now := w_now w |}.

Definition console_log (line : string) (w : World) : World :=
  {| w_fs := w_fs w;
     w_stdout := w_stdout w ++ [line];
     w_stderr := w_stderr w;
     w_now := w_now w |}.

Definition set_fs (fs : FS) (w : World) : World :=
  {| w_fs := fs;
     w_stdout := w_stdout w;
     w_stderr := w_stderr w;
     w_now := w_now w |}.

(** The [try] block of [createCredentialsFromEnv] (lines 225-233): the
    files after it, or what was thrown. *)
Definition write_credentials (path : string) (credentials : Credentials)
    (fs : FS) : FS * option (option string) :=
  let dir := dirname path in
  let made :=
    if negb (existsSync fs dir) then mkdirSync fs dir else inl fs in
  match made with
  | inr thrown => (fs, Some thrown)
  | inl fs1 =>
      match writeFileSync fs1 path (stringify credentials) with
      | inr thrown => (fs1, Some thrown)
      | inl fs2 => (fs2, None)
      end
  end.

(** [createCredentialsFromEnv] (lines 201-238); [None] is [null]. *)
Definition createCredentialsFromEnv (env : Env) (w : World)
  : option Credentials * World :=
  let access := env !! "GDRIVE_ACCESS_TOKEN" in
  let refresh := env !! "GDRIVE_REFRESH_TOKEN" in
  let client_id := env !! "GDRIVE_CLIENT_ID" in
  let client_secret := env !! "GDRIVE_CLIENT_SECRET" in
  if negb (JS.truthy access) || negb (JS.truthy refresh)
     || negb (JS.truthy client_id) || negb (JS.truthy client_secret)
     || negb (JS.truthy (credentialsPath env)) then
    (None,
     console_error "- GDRIVE_CREDENTIALS_PATH"
       (console_error "- GDRIVE_CLIENT_SECRET"
          (console_error "- GDRIVE_CLIENT_ID"
             (console_error "- GDRIVE_REFRESH_TOKEN"
                (console_error "- GDRIVE_ACCESS_TOKEN"
                   (console_error "Missing required environment variables:"
                      w))))))
  else
    let credentials :=
      {| access_token := JS.interp access;
         refresh_token := JS.interp refresh;
         scope := "https://www.googleapis.com/auth/drive.readonly";
         token_type := "Bearer";
         expiry_date := w_now w + 3600000 |} in
    let path := JS.interp (credentialsPath env) in
    match write_credentials path credentials (w_fs w) with
    | (fs, None) =>
        (Some credentials,
         console_log ("Credentials successfully written to " +:+ path)
           (set_fs fs w))
    | (fs, Some thrown) =>
        (None,
         console_error
           ("Error writing credentials file: " +:+
            JS.or_else thrown "Unknown error")
           (set_fs fs w))
    end.

(** [setupAuthentication] (lines 297-324); the client it returns is the
    one installed with [google.options({ auth })]. *)
Definition setupAuthentication (env : Env) : M World OAuth2 :=
  fun w =>
    if negb (JS.truthy (credentialsPath env)) then
      (Exit 1,
       console_error "GDRIVE_CREDENTIALS_PATH must be set in .env file" w)
    else
      match createCredentialsFromEnv env w with
      | (None, w1) =>
          (Exit 1,
           console_error
             "Or ensure all required environment variables are set in .env file"
             (console_error "Please run: npm run auth  (to run OAuth flow)"
                (console_error
                   "Failed to create credentials from environment variables!"
                   w1)))
      | (Some credentials, w1) =>
          let client_id := env !! "GDRIVE_CLIENT_ID" in
          let client_secret := env !! "GDRIVE_CLIENT_SECRET" in
          if negb (JS.truthy client_id) || negb (JS.truthy client_secret) then
            (Exit 1,
             console_error
               "GDRIVE_CLIENT_ID and GDRIVE_CLIENT_SECRET must be set in .env file"
               w1)
          else
            (Return {| oa_client_id := JS.interp client_id;
                       oa_client_secret := JS.interp client_secret;
                       oa_redirect := "http://localhost";
                       oa_credentials := credentials |},
             console_error "Google Drive authentication successful." w1)
      end.

End Startup.

Arguments w_fs {FS} w.
Arguments w_stdout {FS} w.
Arguments w_stderr {FS} w.
Arguments w_now {FS} w.

(** ** A small directory to run the handlers on *)

Module Demo.

Definition alphabet : string :=
  "ABCDEFGHIJKLMNOPQRSTUVWXYZabcdefghijklmnopqrstuvwxyz0123456789+/".

Definition digit (n : N) : ascii :=
  match String.get (N.to_nat n) alphabet with
  | Some c => c
  | None => "="%char
  end.

(** Base64 with padding. *)
Fixpoint base64 (l : list Byte.byte) : string :=
  match l with
  | [] => EmptyString
  | [a] =>
      let n := Byte.to_N a in
      String (digit (n / 4)) (String (digit (n mod 4 * 16)) "==")
  | [a; b] =>
      let n := Byte.to_N a in
      let m := Byte.to_N b in
      String (digit (n / 4))
        (String (digit (n mod 4 * 16 + m / 16))
           (String (digit (m mod 16 * 4)) "="))
  | a :: b :: c :: rest =>
      let n := Byte.to_N a in
      let m := Byte.to_N b in
      let k := Byte.to_N c in
      String (digit (n / 4))
        (String (digit (n mod 4 * 16 + m / 16))
           (String (digit (m mod 16 * 4 + k / 64))
              (String (digit (k mod 64)) (base64 rest))))
  end.

(** Bytes below 128 decode to themselves. *)
Definition buffer : Buffer :=
  {| toString_utf8 := String.string_of_list_byte;
     toString_base64 := base64 |}.

Definition file (id name mimeType : string) : File :=
  {| f_id := Some id;
     f_name := Some name;
     f_mimeType := Some mimeType;
     f_modifiedTime := None;
     f_size := None |}.

Definition budget : list File :=
  [ file "sheet1" "Q1 budget.xlsx" "application/vnd.google-apps.spreadsheet";
    file "notes1" "budget-notes.txt" "text/plain" ].

(** The mime types of the files of the directory. *)
Definition mime_of (fileId : string) : option string :=
  if String.eqb fileId "sheet1" then
    Some "application/vnd.google-apps.spreadsheet"
  else if String.eqb fileId "notes1" then Some "text/plain"
  else if String.eqb fileId "draw1" then
    Some "application/vnd.google-apps.drawing"
  else if String.eqb fileId "scan1" then Some "application/pdf"
  else None.

Definition drive : Drive :=
  {| files_list := fun params =>
       match lp_pageToken params with
       | None =>
           Resolved {| fl_files := Some budget;
                       fl_nextPageToken := Some "page-2" |}
       | Some token =>
           if String.eqb token "page-2" then
             Resolved {| fl_files := Some [file "scan1" "scan.pdf" "application/pdf"];
                         fl_nextPageToken := None |}
           else Rejects "Invalid page token"
       end;
     files_get := fun fileId _ =>
       match mime_of fileId with
       | Some m => Resolved {| fm_mimeType := Some m |}
       | None => Rejects "File not found"
       end;
     files_get_media := fun fileId =>
       match mime_of fileId with
       | Some _ => Resolved (String.list_byte_of_string "notes")
       | None => Rejects "File not found"
       end;
     files_export := fun fileId mimeType =>
       match mime_of fileId with
       | Some _ => Resolved ("exported as " +:+ mimeType)
       | None => Rejects "File not found"
       end |}.

(** A directory whose only file has an empty name. *)
Definition nameless : Drive :=
  {| files_list := fun _ =>
       Resolved {| fl_files := Some [file "x1" "" "text/plain"];
                   fl_nextPageToken := None |};
     files_get := files_get drive;
     files_get_media := files_get_media drive;
     files_export := files_export drive |}.

Definition search (query : JSValue) : CallToolRequest :=
  {| ct_name := "search"; ct_arguments := Some {[ "query" := query ]} |}.

(** What reading the scanned document gives. *)
Definition scan_contents : Contents :=
  {| c_uri := "gdrive:///scan1";
     c_mimeType := "application/pdf";
     c_text := None;
     c_blob := Some "bm90ZXM=" |}.

End Demo.

(** ** A small host to run the start-up code on *)

Module Host.

(** Files by path; every directory exists and every write succeeds. *)
Definition FS : Type := gmap string string.

Definition existsSync (fs : FS) (path : string) : bool := true.

Definition mkdirSync (fs : FS) (path : string) : FS + option string :=
  inl fs.

Definition writeFileSync (fs : FS) (path data : string)
  : FS + option string :=
  inl (<[path := data]> fs).

(** The path up to its last slash. *)
Fixpoint parent (path : string) : option string :=
  match path with
  | EmptyString => None
  | String a rest =>
      match parent rest with
      | Some dir => Some (String a dir)
      | None => if Ascii.eqb a "/" then Some EmptyString else None
      end
  end.

Definition dirname (path : string) : string :=
  match parent path with
  | Some EmptyString => "/"
  | Some dir => dir
  | None => "."
  end.

(** The tokens of the record, one per line. *)
Definition stringify (c : Credentials) : string :=
  "access_token: " +:+ access_token c +:+ JS.nl +:+
  "refresh_token: " +:+ refresh_token c.

Definition start : World FS :=
  {| w_fs := ∅; w_stdout := []; w_stderr := []; w_now := 1700000000000 |}.

(** An environment without [GDRIVE_REFRESH_TOKEN]. *)
Definition env : Env :=
  <["GDRIVE_ACCESS_TOKEN" := "ya29.token"]>
    (<["GDRIVE_CLIENT_ID" := "client.apps.googleusercontent.com"]>
       (<["GDRIVE_CLIENT_SECRET" := "secret"]>
          (<["GDRIVE_CREDENTIALS_PATH" := "/data/credentials.json"]> ∅))).

(** The same with the refresh token. *)
Definition full_env : Env := <["GDRIVE_REFRESH_TOKEN" := "1//refresh"]> env.

End Host.

(** ** The list-tools handler and the entry point *)

(** A property of the input schema of a tool. *)
Record SchemaProperty : Type := {
  sp_type : string;
  sp_description : string;
}.

Record InputSchema : Type := {
  is_type : string;
  is_properties : gmap string SchemaProperty;
  is_required : list string;
}.

Record Tool : Type := {
  t_name : string;
  t_description : string;
  t_inputSchema : InputSchema;
}.

Record ListToolsResult : Type := {
  tools : list Tool;
}.

(** The list-tools handler (lines 144-163). *)
Definition listTools : M Log ListToolsResult :=
  ret {| tools :=
           [ {| t_name := "search";
                t_description := "Search for files in Google Drive";
                t_inputSchema :=
                  {| is_type := "object";
                     is_properties :=
                       {[ "query" := {| sp_type := "string";
                                        sp_description := "Search query" |} ]};
                     is_required := ["query"] |} |} ] |}.

(** What the process runs (lines 594-602). *)
Inductive Mode : Type :=
| AuthFlow
| SSEServer
| WebSocketServer
| StdioServer.

(** [args.includes(a)]. *)
Definition args_include (args : list string) (a : string) : bool :=
  List.existsb (fun x => String.eqb x a) args.

(** [process.env.MCP_TRANSPORT === value]. *)
Definition transport_is (env : Env) (value : string) : bool :=
  match env !! "MCP_TRANSPORT" with
  | Some v => String.eqb v value
  | None => false
  end.

(** The main execution logic (lines 592-602); [args] is
    [process.argv.slice(2)]. *)
Definition main (args : list string) (env : Env) : Mode :=
  if args_include args "auth" then AuthFlow
  else if args_include args "--sse" || transport_is env "sse" then SSEServer
  else if args_include args "--websocket" || transport_is env "websocket" then
    WebSocketServer
  else StdioServer.

(** ** More directories to run the handlers on *)

Module Sample.

(** A directory where no search matches. *)
Definition empty : Drive :=
  {| files_list := fun _ =>
       Resolved {| fl_files := Some []; fl_nextPageToken := None |};
     files_get := files_get Demo.drive;
     files_get_media := files_get_media Demo.drive;
     files_export := files_export Demo.drive |}.

(** The first page of the demo directory, as the list handler returns it. *)
Definition first_page : ListResourcesResult :=
  {| resources :=
       [ {| r_uri := "gdrive:///sheet1";
            r_mimeType := "application/vnd.google-apps.spreadsheet";
            r_name := "Q1 budget.xlsx" |};
         {| r_uri := "gdrive:///notes1";
            r_mimeType := "text/plain";
            r_name := "budget-notes.txt" |} ];
     nextCursor := Some "page-2" |}.

End Sample.

(** ** The interactive authorization flow (lines 240-295) *)

(** [auth.credentials] of the client that [authenticate] resolves with. *)
Record AuthCredentials : Type := {
  ac_access_token : option string;
  ac_refresh_token : option string;
  ac_scope : option string;
  ac_token_type : option string;
  ac_expiry_date : option Z;
}.

(** The [web] object of [tempOAuthConfig]. *)
Record OAuthConfig : Type := {
  web_client_id : string;
  web_client_secret : string;
  web_redirect_uris : list string;
}.

(** The error object of a file-system call that threw, by its message. *)
Definition fs_error (thrown : option string) : Exn :=
  Error match thrown with
        | Some message => message
        | None => ""
        end.

Section AuthFlow.

(** The file system as in the start-up code, with [fs.unlinkSync];
    [path.join]; [JSON.stringify(_, null, 2)] of the two objects that are
    written; and [authenticate], which reads the key file. *)
Variable FS : Type.
Variable existsSync : FS -> string -> bool.
Variable mkdirSync : FS -> string -> FS + option string.
Variable writeFileSync : FS -> string -> string -> FS + option string.
Variable unlinkSync : FS -> string -> FS + option string.
Variable dirname : string -> string.
Variable join : string -> string -> string.
Variable stringify_config : OAuthConfig -> string.
Variable stringify_tokens : AuthCredentials -> string.
Variable authenticate : FS -> string -> list string -> Reply AuthCredentials.

(** The [try] block (lines 264-288): what it threw, if it did, and the
    world at that point. *)
Definition auth_try (path tempOAuthPath : string) (config : OAuthConfig)
    (w : World FS) : option Exn * World FS :=
  let dir := dirname path in
  let made :=
    if negb (existsSync (w_fs w) dir) then mkdirSync (w_fs w) dir
    else inl (w_fs w) in
  match made with
  | inr thrown => (Some (fs_error thrown), w)
  | inl fs1 =>
      match writeFileSync fs1 tempOAuthPath (stringify_config config) with
      | inr thrown => (Some (fs_error thrown), set_fs FS fs1 w)
      | inl fs2 =>
          match authenticate fs2 tempOAuthPath
                  ["https://www.googleapis.com/auth/drive.readonly"] with
          | Rejects reason => (Some (Rejected reason), set_fs FS fs2 w)
          | Resolved credentials =>
              match writeFileSync fs2 path (stringify_tokens credentials) with
              | inr thrown => (Some (fs_error thrown), set_fs FS fs2 w)
              | inl fs3 =>
                  let w3 :=
                    console_log FS ("Credentials saved to: " +:+ path)
                      (set_fs FS fs3 w) in
                  match unlinkSync fs3 tempOAuthPath with
                  | inr thrown => (Some (fs_error thrown), w3)
                  | inl fs4 =>
                      let w4 := set_fs FS fs4 w3 in
                      let w5 :=
                        if JS.truthy (ac_access_token credentials)
                           && JS.truthy (ac_refresh_token credentials) then
                          console_log FS
                            ("GDRIVE_REFRESH_TOKEN=" +:+
                             JS.interp (ac_refresh_token credentials))
                            (console_log FS
                               ("GDRIVE_ACCESS_TOKEN=" +:+
                                JS.interp (ac_access_token credentials))
                               (console_log FS
                                  (JS.nl +:+
                                   "Update your .env file with these tokens:")
                                  w4))
                        else w4 in
                      (None,
                       console_log FS
                         "You can now run the server with: npm start" w5)
                  end
              end
          end
      end
  end.

(** [authenticateAndSaveCredentials] (lines 240-295). *)
Definition authenticateAndSaveCredentials (env : Env) : M (World FS) unit :=
  fun w =>
    let w := console_log FS "Launching auth flow…" w in
    let client_id := env !! "GDRIVE_CLIENT_ID" in
    let client_secret := env !! "GDRIVE_CLIENT_SECRET" in
    if negb (JS.truthy client_id) || negb (JS.truthy client_secret)
       || negb (JS.truthy (credentialsPath env)) then
      (Exit 1,
       console_error FS "- GDRIVE_CREDENTIALS_PATH"
         (console_error FS "- GDRIVE_CLIENT_SECRET"
            (console_error FS "- GDRIVE_CLIENT_ID"
               (console_error FS
                  "Required environment variables must be set in .env file:"
                  w))))
    else
      let path := JS.interp (credentialsPath env) in
      let tempOAuthConfig :=
        {| web_client_id := JS.interp client_id;
           web_client_secret := JS.interp client_secret;
           web_redirect_uris := ["http://localhost"] |} in
      let tempOAuthPath := join (dirname path) "temp-oauth.json" in
      match auth_try path tempOAuthPath tempOAuthConfig w with
      | (None, w') => (Return tt, w')
      | (Some error, w') =>
          if existsSync (w_fs w') tempOAuthPath then
            match unlinkSync (w_fs w') tempOAuthPath with
            | inl fs => (Throw error, set_fs FS fs w')
            | inr thrown => (Throw (fs_error thrown), w')
            end
          else (Throw error, w')
      end.

End AuthFlow.

(** ** A disk to run the authorization flow on *)

Module Disk.

(** Files and directories by path. *)
Definition FS : Type := gmap string string.

Definition existsSync (fs : FS) (path : string) : bool :=
  match fs !! path with
  | Some _ => true
  | None => false
  end.

Definition mkdirSync (fs : FS) (path : string) : FS + option string :=
  inl (<[path := ""]> fs).

Definition writeFileSync (fs : FS) (path data : string) : FS + option string :=
  inl (<[path := data]> fs).

Definition unlinkSync (fs : FS) (path : string) : FS + option string :=
  match fs !! path with
  | Some _ => inl (delete path fs)
  | None => inr (Some "ENOENT: no such file or directory")
  end.

Definition join (dir name : string) : string := dir +:+ "/" +:+ name.

Definition stringify_config (config : OAuthConfig) : string :=
  "client_id: " +:+ web_client_id config.

Definition stringify_tokens (credentials : AuthCredentials) : string :=
  "access_token: " +:+ JS.interp (ac_access_token credentials).

(** The user grants the access. *)
Definition granted (fs : FS) (keyfile : string) (scopes : list string)
  : Reply AuthCredentials :=
  Resolved {| ac_access_token := Some "ya29.new";
              ac_refresh_token := Some "1//new";
              ac_scope := List.head scopes;
              ac_token_type := Some "Bearer";
              ac_expiry_date := None |}.

(** The user closes the browser. *)
Definition denied (fs : FS) (keyfile : string) (scopes : list string)
  : Reply AuthCredentials :=
  Rejects "access_denied".

Definition start : World FS :=
  {| w_fs := ∅; w_stdout := []; w_stderr := []; w_now := 1700000000000 |}.

End Disk.

(** ** The HTTP front ends (lines 336-434 and 480-508) *)

(** The value given to [JSON.stringify] for a response body. *)
Inductive Json : Type :=
| JsonStr (s : string)
| JsonBool (b : bool)
| JsonArr (items : list Json)
| JsonObj (fields : list (string * Json)).

(** What [res.end] was given. *)
Inductive Body : Type :=
| NoBody
| JsonBody (value : Json)
| TextBody (text : string).

(** A thrown value: an [Error] with its message, or anything else. *)
Inductive Thrown : Type :=
| ThrownError (message : string)
| ThrownOther.

(** A call of [console.error]: a text, or a text and a thrown value. *)
Inductive LogEntry : Type :=
| Line (text : string)
| LineAbout (text : string) (value : Thrown).

(** What a request handler did with the response: the headers it set, in
    order, the status of [writeHead] and the body of [end] if it called
    them, whether it bound a push channel to the response, and what it
    logged. *)
Record HttpResponse : Type := {
  h_headers : list (string * string);
  h_status : option Z;
  h_body : option Body;
  h_transport : bool;
  h_stderr : list LogEntry;
}.

(** [process.env.PORT ? parseInt(process.env.PORT) : 3000], as the text
    that string concatenation makes of it; [parseInt] gives the text of
    the number that the library function returns. *)
Definition port (parseInt : string -> string) (env : Env) : string :=
  if JS.truthy (env !! "PORT") then parseInt (JS.interp (env !! "PORT"))
  else "3000".

(** [process.env.NODE_ENV === 'production']. *)
Definition docker (env : Env) : bool :=
  match env !! "NODE_ENV" with
  | Some v => String.eqb v "production"
  | None => false
  end.

(** The headers that the push-channel server sets on every response. *)
Definition sse_cors : list (string * string) :=
  [ ("Access-Control-Allow-Origin", "*");
    ("Access-Control-Allow-Methods", "GET, POST, PUT, DELETE, OPTIONS");
    ("Access-Control-Allow-Headers",
     "Content-Type, Authorization, Accept, Cache-Control");
    ("Access-Control-Expose-Headers", "Content-Type");
    ("Access-Control-Allow-Credentials", "false") ].

(** The request listener of [runSSEServer] (lines 340-434).  [construct]
    is what [new SSEServerTransport] threw, if it did; [headersSent] is
    [res.headersSent] at that point; [connect] is what the promise of
    [server.connect] rejected with, if it did.  The listeners for the
    later [close] and [error] events of the request are not part of it. *)
Definition sse_listener (env : Env) (port : string)
    (construct : option Thrown) (headersSent : bool) (connect : option Thrown)
    (method url : string) : HttpResponse :=
  if String.eqb method "OPTIONS" then
    {| h_headers := sse_cors; h_status := Some 200%Z; h_body := Some NoBody;
       h_transport := false; h_stderr := [] |}
  else if String.eqb url "/health" then
    {| h_headers := sse_cors ++ [("Content-Type", "application/json")];
       h_status := Some 200%Z;
       h_body :=
         Some (JsonBody
                 (JsonObj
                    [ ("status", JsonStr "healthy");
                      ("service", JsonStr "mcp-gdrive");
                      ("version", JsonStr "0.6.2");
                      ("capabilities",
                       JsonArr [JsonStr "resources"; JsonStr "tools"]);
                      ("transports", JsonArr [JsonStr "sse"]);
                      ("endpoints",
                       JsonObj [ ("sse", JsonStr "/sse");
                                 ("health", JsonStr "/health") ]);
                      ("docker", JsonBool (docker env)) ]));
       h_transport := false; h_stderr := [] |}
  else if String.eqb url "/" then
    {| h_headers := sse_cors ++ [("Content-Type", "application/json")];
       h_status := Some 200%Z;
       h_body :=
         Some (JsonBody
                 (JsonObj
                    [ ("name", JsonStr "MCP GDrive Server");
                      ("version", JsonStr "0.6.2");
                      ("endpoints",
                       JsonObj
                         [ ("sse", JsonStr ("http://localhost:" +:+ port +:+ "/sse"));
                           ("health",
                            JsonStr ("http://localhost:" +:+ port +:+ "/health")) ]);
                      ("instructions",
                       JsonStr "Connect MCP Inspector to the SSE endpoint") ]));
       h_transport := false; h_stderr := [] |}
  else if String.eqb url "/sse" then
    match construct with
    | None =>
        {| h_headers := sse_cors; h_status := None; h_body := None;
           h_transport := true;
           h_stderr :=
             [ Line "📡 New SSE connection from MCP Inspector";
               match connect with
               | None =>
                   Line "✅ MCP server connected to SSE transport successfully"
               | Some error =>
                   LineAbout "❌ Failed to connect MCP server to SSE transport:"
                     error
               end ] |}
    | Some error =>
        let logged :=
          [ Line "📡 New SSE connection from MCP Inspector";
            LineAbout "💥 Error setting up SSE connection:" error ] in
        if negb headersSent then
          let errorMessage :=
            match error with
            | ThrownError message => message
            | ThrownOther => "Unknown error occurred"
            end in
          {| h_headers := sse_cors ++ [("Content-Type", "application/json")];
             h_status := Some 500%Z;
             h_body :=
               Some (JsonBody
                       (JsonObj
                          [ ("error", JsonStr "Failed to establish SSE connection");
                            ("details", JsonStr errorMessage) ]));
             h_transport := false; h_stderr := logged |}
        else
          {| h_headers := sse_cors; h_status := None; h_body := None;
             h_transport := false; h_stderr := logged |}
    end
  else
    {| h_headers := sse_cors ++ [("Content-Type", "application/json")];
       h_status := Some 404%Z;
       h_body :=
         Some (JsonBody
                 (JsonObj
                    [ ("error", JsonStr "Not Found");
                      ("message",
                       JsonStr "Available endpoints: /sse (for MCP Inspector), /health (for status check)");
                      ("endpoints",
                       JsonObj
                         [ ("sse", JsonStr ("http://localhost:" +:+ port +:+ "/sse"));
                           ("health",
                            JsonStr ("http://localhost:" +:+ port +:+ "/health")) ]) ]));
       h_transport := false; h_stderr := [] |}.

(** The headers that the socket server sets on every response. *)
Definition ws_cors : list (string * string) :=
  [ ("Access-Control-Allow-Origin", "*");
    ("Access-Control-Allow-Methods", "GET, POST, OPTIONS");
    ("Access-Control-Allow-Headers", "Content-Type") ].

(** The request listener of [runWebSocketServer] (lines 484-508). *)
Definition ws_listener (method url : string) : HttpResponse :=
  if String.eqb method "OPTIONS" then
    {| h_headers := ws_cors; h_status := Some 200%Z; h_body := Some NoBody;
       h_transport := false; h_stderr := [] |}
  else if String.eqb url "/health" then
    {| h_headers := ws_cors ++ [("Content-Type", "application/json")];
       h_status := Some 200%Z;
       h_body :=
         Some (JsonBody
                 (JsonObj
                    [ ("status", JsonStr "healthy");
                      ("service", JsonStr "mcp-gdrive");
                      ("version", JsonStr "0.6.2");
                      ("capabilities",
                       JsonArr [JsonStr "resources"; JsonStr "tools"]);
                      ("transports", JsonArr [JsonStr "websocket"]) ]));
       h_transport := false; h_stderr := [] |}
  else
    {| h_headers := ws_cors ++ [("Content-Type", "text/plain")];
       h_status := Some 404%Z;
       h_body := Some (TextBody "Not Found - Use WebSocket for MCP communication");
       h_transport := false; h_stderr := [] |}.

(** The member [key] of the object of a JSON body. *)
Definition body_member (key : string) (body : option Body) : option Json :=
  match body with
  | Some (JsonBody (JsonObj fields)) =>
      match List.find (fun field => String.eqb (fst field) key) fields with
      | Some field => Some (snd field)
      | None => None
      end
  | _ => None
  end.

(** ** Auxiliary definitions of the statements *)

(** What a computation returned, if it did. *)
Definition returned {A} (o : Outcome A) : option A :=
  match o with
  | Return a => Some a
  | _ => None
  end.

(** The line of a match in the words of the claim C6: the name, replaced by
    [Unknown] only when the file has none, and the mime type. *)
Definition line_as_claimed (file : File) : string :=
  match f_name file with
  | Some name => name
  | None => "Unknown"
  end +:+ " (" +:+ JS.interp (f_mimeType file) +:+ ")".

(** The list request of the list-resources handler with a given page
    token. *)
Definition list_params (token : option string) : ListParams :=
  {| lp_q := None;
     lp_pageSize := 10;
     lp_fields := "nextPageToken, files(id, name, mimeType)";
     lp_pageToken := token |}.

Definition list_request (c : option string) : ListResourcesRequest :=
  {| lr_params := Some {| cursor := c |} |}.

(** What [createCredentialsFromEnv] prints when a variable is missing. *)
Definition missing_report : list string :=
  [ "Missing required environment variables:";
    "- GDRIVE_ACCESS_TOKEN"; "- GDRIVE_REFRESH_TOKEN"; "- GDRIVE_CLIENT_ID";
    "- GDRIVE_CLIENT_SECRET"; "- GDRIVE_CREDENTIALS_PATH" ].

(** What [setupAuthentication] adds before it exits. *)
Definition failed_report : list string :=
  [ "Failed to create credentials from environment variables!";
    "Please run: npm run auth  (to run OAuth flow)";
    "Or ensure all required environment variables are set in .env file" ].

(** The world after some more lines on the error output. *)
Definition printed {FS} (w : World FS) (lines : list string) : World FS :=
  {| w_fs := w_fs w;
     w_stdout := w_stdout w;
     w_stderr := w_stderr w ++ lines;
     w_now := w_now w |}.

(** The characters of a query that the escaping rewrites. *)
Fixpoint specials (s : string) : nat :=
  match s with
  | EmptyString => 0
  | String a s' =>
      (if Ascii.eqb a backslash || Ascii.eqb a quote then 1 else 0) + specials s'
  end.


(** The five required variables are set to non-empty values. *)
Definition all_set (env : Env) : bool :=
  List.forallb (fun v => JS.truthy (env !! v)) required_variables.

(** The record that [createCredentialsFromEnv] builds (lines 217-223). *)
Definition credentials_of (env : Env) (now : Z) : Credentials :=
  {| access_token := JS.interp (env !! "GDRIVE_ACCESS_TOKEN");
     refresh_token := JS.interp (env !! "GDRIVE_REFRESH_TOKEN");
     scope := "https://www.googleapis.com/auth/drive.readonly";
     token_type := "Bearer";
     expiry_date := now + 3600000 |}.

(** A write that the file system refuses. *)
Definition refused_write (fs : Host.FS) (path data : string)
  : Host.FS + option string :=
  inr (Some "EACCES: permission denied").

(** The host environment with an empty refresh token. *)
Definition env_with_empty_token : Env :=
  <["GDRIVE_REFRESH_TOKEN" := ""]> Host.env.

(** The three variables the authorization flow needs. *)
Definition flow_variables : list string :=
  [ "GDRIVE_CLIENT_ID"; "GDRIVE_CLIENT_SECRET"; "GDRIVE_CREDENTIALS_PATH" ].

(** What the flow prints when one of them is missing. *)
Definition flow_report : list string :=
  [ "Required environment variables must be set in .env file:";
    "- GDRIVE_CLIENT_ID"; "- GDRIVE_CLIENT_SECRET";
    "- GDRIVE_CREDENTIALS_PATH" ].

(** The lines that show the two new tokens. *)
Definition token_lines (credentials : AuthCredentials) : list string :=
  [ JS.nl +:+ "Update your .env file with these tokens:";
    "GDRIVE_ACCESS_TOKEN=" +:+ JS.interp (ac_access_token credentials);
    "GDRIVE_REFRESH_TOKEN=" +:+ JS.interp (ac_refresh_token credentials) ].

(** What [setupAuthentication] prints when the credentials path is
    missing (line 299). *)
Definition path_report : list string :=
  [ "GDRIVE_CREDENTIALS_PATH must be set in .env file" ].

(** The host environment, which lacks the refresh token, without the
    credentials path. *)
Definition env_without_path : Env :=
  delete "GDRIVE_CREDENTIALS_PATH" Host.env.

(** * Properties *)

(** ** Escaping of the search query *)

Lemma backslash_not_quote : Ascii.eqb backslash quote = false.
Proof. reflexivity. Qed.

Lemma append_cons (a : ascii) (s t : string) :
  String a s +:+ t = String a (s +:+ t).
Proof. reflexivity. Qed.

Lemma append_empty (t : string) : EmptyString +:+ t = t.
Proof. reflexivity. Qed.

Ltac str_app := rewrite ?append_cons, ?append_empty.

Lemma replace_all_cons (c : ascii) (r : string) (a : ascii) (s : string) :
  JS.replace_all c r (String a s) =
  if Ascii.eqb a c then r +:+ JS.replace_all c r s
  else String a (JS.replace_all c r s).
Proof. reflexivity. Qed.

(** The two passes of [escapedQuery] amount to escaping each character of
    the query on its own: the second pass does not touch the backslashes
    that the first one wrote. *)
Lemma escapedQuery_escape_each (q : string) :
  escapedQuery q = escape_each q.
Proof.
  unfold escapedQuery.
  induction q as [|a q IH]; [reflexivity|].
  rewrite replace_all_cons. cbn [escape_each]. unfold escape_char.
  destruct (Ascii.eqb a backslash) eqn:Hb.
  - str_app. rewrite !replace_all_cons.
    rewrite backslash_not_quote. now rewrite IH.
  - rewrite replace_all_cons.
    destruct (Ascii.eqb a quote) eqn:Hq; str_app; now rewrite IH.
Qed.

Lemma read_literal_escape_each (q rest : string) :
  read_literal (escape_each q +:+ String quote rest) = Some (q, rest).
Proof.
  induction q as [|a q IH]; [reflexivity|].
  cbn [escape_each]. unfold escape_char.
  destruct (Ascii.eqb a backslash) eqn:Hb.
  - apply Ascii.eqb_eq in Hb. subst a.
    str_app. cbn [read_literal].
    rewrite backslash_not_quote, Ascii.eqb_refl. now rewrite IH.
  - destruct (Ascii.eqb a quote) eqn:Hq.
    + apply Ascii.eqb_eq in Hq. subst a.
      str_app. cbn [read_literal].
      rewrite backslash_not_quote, Ascii.eqb_refl. now rewrite IH.
    + str_app. cbn [read_literal]. rewrite Hq, Hb. now rewrite IH.
Qed.

(** C1. The query embedded in the template [fullText contains '...'] is
    the original query with every backslash doubled and every single quote
    preceded by a backslash (each character escaped on its own), and a
    reader of the quoted literal, started after the opening quote of the
    template, ends exactly at the closing quote of the template with the
    original query as the value: no character of the query can end the
    literal. *)
Theorem escapedQuery_safe (q rest : string) :
  escapedQuery q = escape_each q /\
  formattedQuery q = "fullText contains '" +:+ escape_each q +:+ "'" /\
  read_literal (escapedQuery q +:+ "'" +:+ rest) = Some (q, rest).
Proof.
  split; [apply escapedQuery_escape_each|]. split.
  - unfold formattedQuery. now rewrite escapedQuery_escape_each.
  - rewrite escapedQuery_escape_each. apply read_literal_escape_each.
Qed.

(** ** The read-resource handler *)

Lemma app_two {A} (l : list A) (a b : A) : (l ++ [a]) ++ [b] = l ++ [a; b].
Proof. now rewrite <- app_assoc. Qed.

Section Read.

Variable drive : Drive.
Variable buffer : Buffer.

(** The handler on a file of the native-document family. *)
Lemma readResource_family (uri : string) (file : FileMeta) (log : Log) :
  files_get drive (fileId uri) "mimeType" = Resolved file ->
  in_family (fm_mimeType file) = true ->
  readResource drive buffer {| rr_uri := uri |} log =
  let e := exportMimeType (fm_mimeType file) in
  let log' := log ++ [CGet (fileId uri) "mimeType"; CExport (fileId uri) e] in
  match files_export drive (fileId uri) e with
  | Resolved data =>
      (Return {| contents := [ {| c_uri := uri; c_mimeType := e;
                                  c_text := Some data; c_blob := None |} ] |},
       log')
  | Rejects reason => (Throw (Rejected reason), log')
  end.
Proof.
  intros Hget Hfam. unfold readResource, bind, await, ret. cbn [rr_uri].
  rewrite Hget, Hfam.
  destruct (files_export _ _ _); cbn; now rewrite app_two.
Qed.

(** The handler on any other file. *)
Lemma readResource_regular (uri : string) (file : FileMeta) (log : Log) :
  files_get drive (fileId uri) "mimeType" = Resolved file ->
  in_family (fm_mimeType file) = false ->
  readResource drive buffer {| rr_uri := uri |} log =
  let m := JS.or_else (fm_mimeType file) "application/octet-stream" in
  let log' := log ++ [CGet (fileId uri) "mimeType"; CGetMedia (fileId uri)] in
  match files_get_media drive (fileId uri) with
  | Resolved data =>
      (Return {| contents :=
                   [ if JS.startsWith m "text/" || String.eqb m "application/json"
                     then {| c_uri := uri; c_mimeType := m;
                             c_text := Some (toString_utf8 buffer data);
                             c_blob := None |}
                     else {| c_uri := uri; c_mimeType := m;
                             c_text := None;
                             c_blob := Some (toString_base64 buffer data) |} ] |},
       log')
  | Rejects reason => (Throw (Rejected reason), log')
  end.
Proof.
  intros Hget Hfam. unfold readResource, bind, await, ret. cbn [rr_uri].
  rewrite Hget, Hfam.
  destruct (files_get_media _ _); cbn; rewrite app_two; [|reflexivity].
  now destruct (_ || _).
Qed.

(** The metadata request rejected. *)
Lemma readResource_rejected (uri reason : string) (log : Log) :
  files_get drive (fileId uri) "mimeType" = Rejects reason ->
  readResource drive buffer {| rr_uri := uri |} log =
  (Throw (Rejected reason), log ++ [CGet (fileId uri) "mimeType"]).
Proof.
  intros Hget. unfold readResource, bind, await. cbn [rr_uri].
  now rewrite Hget.
Qed.

End Read.

Lemma exportMimeType_truthy (m : option string) :
  JS.truthy_str (exportMimeType m) = true.
Proof.
  unfold exportMimeType.
  repeat match goal with |- context [if ?b then _ else _] => destruct b end;
    reflexivity.
Qed.

Lemma or_else_truthy (v : option string) (d : string) :
  JS.truthy_str d = true -> JS.truthy_str (JS.or_else v d) = true.
Proof.
  intros Hd. destruct v as [s|]; cbn; [|exact Hd].
  destruct (JS.truthy_str s) eqn:Hs; [exact Hs | exact Hd].
Qed.

(** C2. Every read-resource request that succeeds returns a [contents]
    array of exactly one element; that element has a non-empty [mimeType]
    and exactly one of the two payload fields: [text] without [blob], or
    [blob] without [text]. *)
Theorem readResource_one_payload (drive : Drive) (buffer : Buffer)
    (request : ReadResourceRequest) (log log' : Log)
    (result : ReadResourceResult) :
  readResource drive buffer request log = (Return result, log') ->
  exists c : Contents,
    contents result = [c] /\
    JS.truthy_str (c_mimeType c) = true /\
    ((is_Some (c_text c) /\ c_blob c = None) \/
     (c_text c = None /\ is_Some (c_blob c))).
Proof.
  destruct request as [uri]. intros Hrun.
  destruct (files_get drive (fileId uri) "mimeType") as [file|reason] eqn:Hget.
  - destruct (in_family (fm_mimeType file)) eqn:Hfam.
    + rewrite (readResource_family _ _ _ _ _ Hget Hfam) in Hrun. cbn zeta in Hrun.
      destruct (files_export _ _ _) as [data|]; [|discriminate].
      injection Hrun as <- _. eexists. split; [reflexivity|]. cbn.
      split; [apply exportMimeType_truthy|]. left. split; [by eexists|done].
    + rewrite (readResource_regular _ _ _ _ _ Hget Hfam) in Hrun. cbn zeta in Hrun.
      destruct (files_get_media _ _) as [data|]; [|discriminate].
      injection Hrun as <- _. eexists. split; [reflexivity|].
      destruct (_ || _); cbn.
      * split; [now apply or_else_truthy|]. left. split; [by eexists|done].
      * split; [now apply or_else_truthy|]. right. split; [done|by eexists].
  - rewrite (readResource_rejected _ _ _ _ _ Hget) in Hrun. discriminate.
Qed.

(** Reading the scanned document of the demo directory succeeds, with a
    [blob]. *)
Lemma readResource_one_payload_witness :
  readResource Demo.drive Demo.buffer {| rr_uri := "gdrive:///scan1" |} [] =
    (Return {| contents := [Demo.scan_contents] |},
     [CGet "scan1" "mimeType"; CGetMedia "scan1"]) /\
  exists c : Contents,
    [Demo.scan_contents] = [c] /\
    JS.truthy_str (c_mimeType c) = true /\
    ((is_Some (c_text c) /\ c_blob c = None) \/
     (c_text c = None /\ is_Some (c_blob c))).
Proof.
  split; [reflexivity|].
  apply (readResource_one_payload Demo.drive Demo.buffer
           {| rr_uri := "gdrive:///scan1" |} []
           [CGet "scan1" "mimeType"; CGetMedia "scan1"]
           {| contents := [Demo.scan_contents] |}).
  reflexivity.
Defined.

(** ** The export format *)

Lemma eqb_case (m label : string) :
  m = label -> String.eqb m label = true.
Proof. intros ->. apply String.eqb_refl. Qed.

Lemma eqb_other (m label : string) :
  m <> label -> String.eqb m label = false.
Proof. intros Hne. now apply String.eqb_neq. Qed.

(** The table of the [switch], one row at a time. *)
Lemma exportMimeType_table (m : string) :
  (m = "application/vnd.google-apps.document" ->
   exportMimeType (Some m) = "text/markdown") /\
  (m = "application/vnd.google-apps.spreadsheet" ->
   exportMimeType (Some m) = "text/csv") /\
  (m = "application/vnd.google-apps.presentation" ->
   exportMimeType (Some m) = "text/plain") /\
  (m = "application/vnd.google-apps.drawing" ->
   exportMimeType (Some m) = "image/png") /\
  (m <> "application/vnd.google-apps.document" ->
   m <> "application/vnd.google-apps.spreadsheet" ->
   m <> "application/vnd.google-apps.presentation" ->
   m <> "application/vnd.google-apps.drawing" ->
   exportMimeType (Some m) = "text/plain").
Proof.
  repeat split; try (intros ->; reflexivity).
  intros H1 H2 H3 H4. unfold exportMimeType.
  now rewrite !eqb_other by assumption.
Qed.

(** C3. For a file whose metadata [mimeType] starts with
    [application/vnd.google-apps], the read handler asks Drive for the
    metadata and then for an export, and the format of the export request
    is fixed by the [mimeType] alone: document gives [text/markdown],
    spreadsheet [text/csv], presentation [text/plain], drawing [image/png],
    and every other member of the family [text/plain]. *)
Theorem readResource_export_format (drive : Drive) (buffer : Buffer)
    (uri m : string) (log : Log) :
  files_get drive (fileId uri) "mimeType" = Resolved {| fm_mimeType := Some m |} ->
  JS.startsWith m "application/vnd.google-apps" = true ->
  snd (readResource drive buffer {| rr_uri := uri |} log) =
    log ++ [ CGet (fileId uri) "mimeType";
             CExport (fileId uri) (exportMimeType (Some m)) ] /\
  (m = "application/vnd.google-apps.document" ->
   exportMimeType (Some m) = "text/markdown") /\
  (m = "application/vnd.google-apps.spreadsheet" ->
   exportMimeType (Some m) = "text/csv") /\
  (m = "application/vnd.google-apps.presentation" ->
   exportMimeType (Some m) = "text/plain") /\
  (m = "application/vnd.google-apps.drawing" ->
   exportMimeType (Some m) = "image/png") /\
  (m <> "application/vnd.google-apps.document" ->
   m <> "application/vnd.google-apps.spreadsheet" ->
   m <> "application/vnd.google-apps.presentation" ->
   m <> "application/vnd.google-apps.drawing" ->
   exportMimeType (Some m) = "text/plain").
Proof.
  intros Hget Hfam. split; [|apply exportMimeType_table].
  rewrite (readResource_family drive buffer uri _ log Hget Hfam).
  cbn zeta. cbn [fm_mimeType]. now destruct (files_export _ _ _).
Qed.

(** The spreadsheet of the demo directory is exported as CSV. *)
Lemma readResource_export_format_witness :
  snd (readResource Demo.drive Demo.buffer {| rr_uri := "gdrive:///sheet1" |} []) =
    [ CGet "sheet1" "mimeType"; CExport "sheet1" "text/csv" ].
Proof.
  refine (proj1 (readResource_export_format Demo.drive Demo.buffer
                   "gdrive:///sheet1" "application/vnd.google-apps.spreadsheet"
                   [] _ _)); reflexivity.
Defined.

(** C10. For a file whose metadata [mimeType] starts with
    [application/vnd.google-apps], whenever the read handler returns, it
    returns the exported data in [text], with the export format as
    [mimeType] and without [blob]; it returns whenever the export request
    resolves.  A drawing is exported as [image/png] and its data is in
    [text] all the same. *)
Theorem readResource_family_text (drive : Drive) (buffer : Buffer)
    (uri m : string) (log : Log) :
  files_get drive (fileId uri) "mimeType" = Resolved {| fm_mimeType := Some m |} ->
  JS.startsWith m "application/vnd.google-apps" = true ->
  (forall data : string,
     files_export drive (fileId uri) (exportMimeType (Some m)) = Resolved data ->
     fst (readResource drive buffer {| rr_uri := uri |} log) =
       Return {| contents := [ {| c_uri := uri;
                                  c_mimeType := exportMimeType (Some m);
                                  c_text := Some data;
                                  c_blob := None |} ] |}) /\
  (forall (result : ReadResourceResult) (log' : Log),
     readResource drive buffer {| rr_uri := uri |} log = (Return result, log') ->
     exists data : string,
       files_export drive (fileId uri) (exportMimeType (Some m)) = Resolved data /\
       contents result = [ {| c_uri := uri;
                              c_mimeType := exportMimeType (Some m);
                              c_text := Some data;
                              c_blob := None |} ]) /\
  (m = "application/vnd.google-apps.drawing" ->
   exportMimeType (Some m) = "image/png").
Proof.
  intros Hget Hfam.
  rewrite (readResource_family drive buffer uri _ log Hget Hfam).
  cbn zeta. cbn [fm_mimeType]. repeat split.
  - intros data ->. reflexivity.
  - intros result log' Hrun.
    destruct (files_export _ _ _) as [data|]; [|discriminate].
    injection Hrun as <- _. now exists data.
  - intros ->. reflexivity.
Qed.

(** The drawing of the demo directory comes back as [image/png] text. *)
Lemma readResource_family_text_witness :
  fst (readResource Demo.drive Demo.buffer {| rr_uri := "gdrive:///draw1" |} []) =
    Return {| contents := [ {| c_uri := "gdrive:///draw1";
                               c_mimeType := "image/png";
                               c_text := Some "exported as image/png";
                               c_blob := None |} ] |}.
Proof.
  refine (proj1 (readResource_family_text Demo.drive Demo.buffer
                   "gdrive:///draw1" "application/vnd.google-apps.drawing"
                   [] _ _) "exported as image/png" _); reflexivity.
Defined.

(** ** A uri without the scheme *)

Lemma replace_first_absent (p r s : string) :
  includes s p = false -> JS.replace_first p r s = s.
Proof.
  induction s as [|a s IH]; cbn [includes JS.replace_first]; intros H;
    apply orb_false_elim in H as [Hp Hs]; rewrite Hp; [reflexivity|].
  now rewrite IH.
Qed.

Lemma fileId_scheme (id : string) : fileId ("gdrive:///" +:+ id) = id.
Proof.
  unfold fileId. now destruct id.
Qed.

(** The claim C8 fails: a uri without the scheme is not rejected by the
    handler.  [scan1] is looked up as it is, and the read succeeds. *)
Lemma readResource_malformed_uri_accepted :
  JS.startsWith "scan1" "gdrive:///" = false /\
  readResource Demo.drive Demo.buffer {| rr_uri := "scan1" |} [] =
    (Return {| contents := [ {| c_uri := "scan1";
                                c_mimeType := "application/pdf";
                                c_text := None;
                                c_blob := Some "bm90ZXM=" |} ] |},
     [CGet "scan1" "mimeType"; CGetMedia "scan1"]) /\
  ~ (forall (drive : Drive) (buffer : Buffer) (uri : string) (log : Log),
       JS.startsWith uri "gdrive:///" = false ->
       request_level (fst (readResource drive buffer {| rr_uri := uri |} log)) = true).
Proof.
  split; [reflexivity|]. split; [reflexivity|].
  intros H. specialize (H Demo.drive Demo.buffer "scan1" [] eq_refl).
  discriminate H.
Qed.

(** C8, amended. The read handler does not check the shape of the uri: it
    removes the first [gdrive:///] of the uri, if there is one, and asks
    Drive for the metadata of what is left (the whole uri when it has no
    scheme, the id when the uri is [gdrive:///<id>]).  The handler throws
    only what a Drive call rejected with, as a failure of the request,
    and never ends the process. *)
Theorem readResource_uri_not_checked (drive : Drive) (buffer : Buffer)
    (uri : string) (log : Log) :
  (exists rest : Log,
     snd (readResource drive buffer {| rr_uri := uri |} log) =
     log ++ CGet (fileId uri) "mimeType" :: rest) /\
  process_fatal (fst (readResource drive buffer {| rr_uri := uri |} log)) = false /\
  (forall e : Exn,
     fst (readResource drive buffer {| rr_uri := uri |} log) = Throw e ->
     exists reason : string,
       e = Rejected reason /\
       (files_get drive (fileId uri) "mimeType" = Rejects reason \/
        (exists mimeType : string,
           files_export drive (fileId uri) mimeType = Rejects reason) \/
        files_get_media drive (fileId uri) = Rejects reason)) /\
  (includes uri "gdrive:///" = false -> fileId uri = uri) /\
  (forall id : string, fileId ("gdrive:///" +:+ id) = id).
Proof.
  assert (Hid : includes uri "gdrive:///" = false -> fileId uri = uri)
    by apply replace_first_absent.
  destruct (files_get drive (fileId uri) "mimeType") as [file|reason] eqn:Hget.
  - destruct (in_family (fm_mimeType file)) eqn:Hfam.
    + rewrite (readResource_family drive buffer uri file log Hget Hfam).
      cbn zeta.
      destruct (files_export _ _ _) as [data|reason] eqn:Hexp; cbn [fst snd].
      * repeat split; eauto using fileId_scheme. discriminate.
      * repeat split; eauto using fileId_scheme.
        intros e [= <-]. exists reason. eauto.
    + rewrite (readResource_regular drive buffer uri file log Hget Hfam).
      cbn zeta.
      destruct (files_get_media _ _) as [data|reason] eqn:Hmed; cbn [fst snd].
      * repeat split; eauto using fileId_scheme. discriminate.
      * repeat split; eauto using fileId_scheme.
        intros e [= <-]. exists reason. eauto.
  - rewrite (readResource_rejected drive buffer uri reason log Hget).
    cbn [fst snd]. repeat split; eauto using fileId_scheme.
    intros e [= <-]. exists reason. eauto.
Qed.

(** The uri [scan1] has no scheme and is the file id as it is. *)
Lemma readResource_uri_not_checked_witness :
  includes "scan1" "gdrive:///" = false /\ fileId "scan1" = "scan1".
Proof.
  split; [reflexivity|].
  apply (proj1 (proj2 (proj2 (proj2
           (readResource_uri_not_checked Demo.drive Demo.buffer "scan1" []))))).
  reflexivity.
Defined.

(** ** The call-tool handler *)

Section Call.

Variable drive : Drive.

Lemma callTool_unknown (request : CallToolRequest) (log : Log) :
  ct_name request <> "search" ->
  callTool drive request log = (Throw (Error "Tool not found"), log).
Proof.
  intros Hname. unfold callTool. now rewrite eqb_other.
Qed.

Lemma callTool_falsy (request : CallToolRequest) (log : Log) :
  ct_name request = "search" ->
  truthy_value (arguments_query request) = false ->
  callTool drive request log =
  (Throw (Error "Query parameter is required"), log).
Proof.
  intros Hname Hq. unfold callTool. now rewrite eqb_case, Hq.
Qed.

(** The handler on a non-empty string: the search is sent, and its reply
    decides the outcome. *)
Lemma callTool_search (request : CallToolRequest) (q : string) (log : Log) :
  ct_name request = "search" ->
  arguments_query request = Some (JStr q) ->
  q <> "" ->
  callTool drive request log =
  match files_list drive (search_params q) with
  | Resolved res =>
      (Return
         {| content :=
              [ {| ci_type := "text";
                   ci_text :=
                     "Found " +:+
                     JS.of_nat (match fl_files res with
                                | Some files => List.length files
                                | None => 0
                                end) +:+
                     " files:" +:+ JS.nl +:+
                     match fl_files res with
                     | Some files => JS.join JS.nl (List.map summary_line files)
                     | None => ""
                     end |} ];
            isError := false |},
       log ++ [CList (search_params q)])
  | Rejects reason =>
      (Throw (Rejected reason), log ++ [CList (search_params q)])
  end.
Proof.
  intros Hname Hq Hne. unfold callTool. rewrite eqb_case, Hq by assumption.
  destruct q as [|a q]; [contradiction|]. cbn [truthy_value JS.truthy_str negb].
  unfold bind, await, ret.
  destruct (files_list _ _) as [res|]; [|reflexivity].
  destruct (fl_files res) as [files|]; [|reflexivity].
  cbn [JS.or_else]. now destruct (JS.join _ _).
Qed.

Lemma callTool_not_fatal (request : CallToolRequest) (log : Log) :
  process_fatal (fst (callTool drive request log)) = false.
Proof.
  unfold callTool.
  destruct (String.eqb _ _); [|reflexivity].
  destruct (negb _); [reflexivity|].
  destruct (arguments_query request) as [[| | |q|]|]; try reflexivity.
  unfold bind, await, ret. now destruct (files_list _ _).
Qed.

End Call.

(** C5. A [search] call whose arguments have no [query] throws
    [Query parameter is required], and a call of any other tool throws
    [Tool not found].  Both are thrown by the handler before anything is
    sent to Drive, and no call of the handler ends the process. *)
Theorem callTool_usage_errors (drive : Drive) (request : CallToolRequest)
    (log : Log) :
  (ct_name request = "search" ->
   arguments_query request = None ->
   callTool drive request log =
   (Throw (Error "Query parameter is required"), log)) /\
  (ct_name request <> "search" ->
   callTool drive request log = (Throw (Error "Tool not found"), log)) /\
  process_fatal (fst (callTool drive request log)) = false.
Proof.
  split; [|split].
  - intros Hname Hq. apply callTool_falsy; [assumption|]. now rewrite Hq.
  - apply callTool_unknown.
  - apply callTool_not_fatal.
Qed.

(** [search] with an empty arguments object, and a tool that does not
    exist. *)
Lemma callTool_usage_errors_witness :
  callTool Demo.drive {| ct_name := "search"; ct_arguments := Some ∅ |} [] =
    (Throw (Error "Query parameter is required"), []) /\
  callTool Demo.drive {| ct_name := "delete"; ct_arguments := None |} [] =
    (Throw (Error "Tool not found"), []).
Proof.
  split.
  - apply (proj1 (callTool_usage_errors Demo.drive
                    {| ct_name := "search"; ct_arguments := Some ∅ |} []));
      reflexivity.
  - apply (proj1 (proj2 (callTool_usage_errors Demo.drive
                    {| ct_name := "delete"; ct_arguments := None |} []))).
    discriminate.
Defined.




(** ** The search summary *)

Lemma or_else_set (s d : string) :
  s <> "" -> JS.or_else (Some s) d = s.
Proof. now destruct s. Qed.

(** The claim C6 fails on a file whose name is the empty string: the name
    is there, and the summary says [Unknown] all the same. *)
Lemma callTool_summary_empty_name :
  fst (callTool Demo.nameless (Demo.search (JStr "notes")) []) =
    Return {| content :=
                [ {| ci_type := "text";
                     ci_text := "Found 1 files:" +:+ JS.nl +:+
                                "Unknown (text/plain)" |} ];
              isError := false |} /\
  line_as_claimed (Demo.file "x1" "" "text/plain") = " (text/plain)" /\
  ~ (forall (drive : Drive) (q : string) (files : list File)
            (next : option string) (log : Log),
       q <> "" ->
       files_list drive (search_params q) =
         Resolved {| fl_files := Some files; fl_nextPageToken := next |} ->
       Forall (fun file => is_Some (f_mimeType file)) files ->
       fst (callTool drive (Demo.search (JStr q)) log) =
         Return {| content :=
                     [ {| ci_type := "text";
                          ci_text :=
                            "Found " +:+ JS.of_nat (List.length files) +:+
                            " files:" +:+ JS.nl +:+
                            JS.join JS.nl (List.map line_as_claimed files) |} ];
                   isError := false |}).
Proof.
  split; [reflexivity|]. split; [reflexivity|].
  intros H.
  specialize (H Demo.nameless "notes" [Demo.file "x1" "" "text/plain"] None []).
  assert (Hmime : Forall (fun file => is_Some (f_mimeType file))
                         [Demo.file "x1" "" "text/plain"]).
  { constructor; [by eexists | constructor]. }
  specialize (H ltac:(discriminate) eq_refl Hmime).
  discriminate H.
Qed.

(** C6, amended. When a search succeeds and Drive returns a list of files,
    the result has [isError: false] and one content item, of type [text],
    whose text is [Found N files:], a line feed, and one line
    [<name> (<mimeType>)] per file, joined by line feeds, in the order of
    the reply, N being the number of files.  In a line, the name is
    [Unknown] when the file has no name or an empty one, and the mime type
    is [Unknown type] when the file has none or an empty one. *)
Theorem callTool_summary (drive : Drive) (request : CallToolRequest)
    (q : string) (files : list File) (next : option string) (log : Log) :
  ct_name request = "search" ->
  arguments_query request = Some (JStr q) ->
  q <> "" ->
  files_list drive (search_params q) =
    Resolved {| fl_files := Some files; fl_nextPageToken := next |} ->
  fst (callTool drive request log) =
    Return {| content :=
                [ {| ci_type := "text";
                     ci_text :=
                       "Found " +:+ JS.of_nat (List.length files) +:+
                       " files:" +:+ JS.nl +:+
                       JS.join JS.nl (List.map summary_line files) |} ];
              isError := false |} /\
  (forall file : File,
     exists name mimeType : string,
       summary_line file = name +:+ " (" +:+ mimeType +:+ ")" /\
       (forall n, f_name file = Some n -> n <> "" -> name = n) /\
       (f_name file = None \/ f_name file = Some "" -> name = "Unknown") /\
       (forall m, f_mimeType file = Some m -> m <> "" -> mimeType = m) /\
       (f_mimeType file = None \/ f_mimeType file = Some "" ->
        mimeType = "Unknown type")).
Proof.
  intros Hname Hq Hne Hlist. split.
  - rewrite (callTool_search drive request q log Hname Hq Hne), Hlist.
    reflexivity.
  - intros file.
    exists (JS.or_else (f_name file) "Unknown"),
           (JS.or_else (f_mimeType file) "Unknown type").
    split; [reflexivity|]. repeat split.
    + intros n -> Hn. now apply or_else_set.
    + now intros [-> | ->].
    + intros m -> Hm. now apply or_else_set.
    + now intros [-> | ->].
Qed.

(** The search for [budget] in the demo directory, which holds
    [Q1 budget.xlsx] and [budget-notes.txt]. *)
Lemma callTool_summary_witness :
  fst (callTool Demo.drive (Demo.search (JStr "budget")) []) =
    Return {| content :=
                [ {| ci_type := "text";
                     ci_text :=
                       "Found 2 files:" +:+ JS.nl +:+
                       "Q1 budget.xlsx (application/vnd.google-apps.spreadsheet)" +:+
                       JS.nl +:+ "budget-notes.txt (text/plain)" |} ];
              isError := false |}.
Proof.
  refine (proj1 (callTool_summary Demo.drive (Demo.search (JStr "budget"))
                   "budget" Demo.budget (Some "page-2") [] _ _ _ _));
    solve [reflexivity | discriminate].
Defined.

(** ** Pagination *)

Lemma listResources_run (drive : Drive) (request : ListResourcesRequest)
    (log : Log) :
  let c := match lr_params request with
           | Some p => cursor p
           | None => None
           end in
  let params := list_params (if JS.truthy c then c else None) in
  listResources drive request log =
  match files_list drive params with
  | Resolved res =>
      (Return
         {| resources :=
              List.map
                (fun file =>
                   {| r_uri := "gdrive:///" +:+ JS.interp (f_id file);
                      r_mimeType :=
                        JS.or_else (f_mimeType file) "application/octet-stream";
                      r_name := JS.or_else (f_name file) "Unknown" |})
                (match fl_files res with
                 | Some files => files
                 | None => []
                 end);
            nextCursor := fl_nextPageToken res |},
       log ++ [CList params])
  | Rejects reason => (Throw (Rejected reason), log ++ [CList params])
  end.
Proof.
  cbn zeta. unfold listResources, bind, await, ret, list_params.
  destruct (JS.truthy _); cbn; now destruct (files_list _ _).
Qed.

(** The claim C7 fails on a request whose cursor is the empty string: the
    request carries a cursor, and no page token is sent. *)
Lemma listResources_empty_cursor_dropped :
  snd (listResources Demo.drive (list_request (Some "")) []) =
    [CList (list_params None)] /\
  ~ (forall (drive : Drive) (c : string) (log : Log),
       snd (listResources drive (list_request (Some c)) log) =
       log ++ [CList (list_params (Some c))]).
Proof.
  split; [reflexivity|].
  intros H. specialize (H Demo.drive "" []). discriminate H.
Qed.

(** C7, amended. The list-resources handler sends one list request to
    Drive.  A non-empty cursor of the request is the page token of that
    request, as it is; without a cursor, or with an empty one, no page
    token is sent.  When Drive resolves, the [nextCursor] of the result is
    the next-page token of the reply, as it is. *)
Theorem listResources_cursor (drive : Drive) (request : ListResourcesRequest)
    (log : Log) :
  (forall c : string,
     lr_params request = Some {| cursor := Some c |} ->
     c <> "" ->
     snd (listResources drive request log) =
     log ++ [CList (list_params (Some c))]) /\
  (lr_params request = None \/
   lr_params request = Some {| cursor := None |} \/
   lr_params request = Some {| cursor := Some "" |} ->
   snd (listResources drive request log) = log ++ [CList (list_params None)]) /\
  (forall (result : ListResourcesResult) (log' : Log),
     listResources drive request log = (Return result, log') ->
     exists (params : ListParams) (res : FileList),
       log' = log ++ [CList params] /\
       files_list drive params = Resolved res /\
       nextCursor result = fl_nextPageToken res).
Proof.
  rewrite listResources_run. cbn zeta. split; [|split].
  - intros c -> Hc. destruct c as [|a c]; [contradiction|]. cbn.
    now destruct (files_list _ _).
  - intros [-> | [-> | ->]]; cbn; now destruct (files_list _ _).
  - intros result log'.
    destruct (files_list _ _) as [res|] eqn:Hlist; [|discriminate].
    intros [= <- <-]. eauto.
Qed.

(** The second page of the demo directory is asked with the cursor that
    the first page returned. *)
Lemma listResources_cursor_witness :
  nextCursor <$> returned (fst (listResources Demo.drive (list_request None) [])) =
    Some (Some "page-2") /\
  snd (listResources Demo.drive (list_request (Some "page-2")) []) =
    [CList (list_params (Some "page-2"))].
Proof.
  split; [reflexivity|].
  apply (proj1 (listResources_cursor Demo.drive
                  (list_request (Some "page-2")) []) "page-2");
    [reflexivity | discriminate].
Defined.

(** ** Missing configuration *)

Section Missing.

Variable FS : Type.
Variable existsSync : FS -> string -> bool.
Variable mkdirSync : FS -> string -> FS + option string.
Variable writeFileSync : FS -> string -> string -> FS + option string.
Variable dirname : string -> string.
Variable stringify : Credentials -> string.

Local Notation create :=
  (createCredentialsFromEnv FS existsSync mkdirSync writeFileSync dirname
     stringify).
Local Notation setup :=
  (setupAuthentication FS existsSync mkdirSync writeFileSync dirname stringify).

Lemma printed_error (w : World FS) (lines : list string) (line : string) :
  console_error FS line (printed w lines) = printed w (lines ++ [line]).
Proof. unfold console_error, printed. cbn. now rewrite <- app_assoc. Qed.

Lemma printed_nil (w : World FS) : w = printed w [].
Proof. destruct w. unfold printed. cbn. now rewrite app_nil_r. Qed.

(** With a required variable missing, nothing is built and the report
    lists the five names. *)
Lemma create_missing (env : Env) (w : World FS) (v : string) :
  In v required_variables ->
  env !! v = None ->
  create env w = (None, printed w missing_report).
Proof.
  intros Hin Hv. unfold createCredentialsFromEnv, credentialsPath.
  assert (Hguard :
    negb (JS.truthy (env !! "GDRIVE_ACCESS_TOKEN"))
    || negb (JS.truthy (env !! "GDRIVE_REFRESH_TOKEN"))
    || negb (JS.truthy (env !! "GDRIVE_CLIENT_ID"))
    || negb (JS.truthy (env !! "GDRIVE_CLIENT_SECRET"))
    || negb (JS.truthy (env !! "GDRIVE_CREDENTIALS_PATH")) = true).
  { cbn in Hin.
    destruct Hin as [<- | [<- | [<- | [<- | [<- | []]]]]];
      rewrite Hv; cbn [JS.truthy negb];
      rewrite ?orb_true_r, ?orb_true_l; reflexivity. }
  rewrite Hguard. f_equal.
  rewrite (printed_nil w) at 1. now rewrite !printed_error.
Qed.

Lemma names_missing_report (v : string) :
  In v required_variables -> names missing_report v = true.
Proof.
  cbn. intros [<- | [<- | [<- | [<- | [<- | []]]]]]; reflexivity.
Qed.

Lemma names_app_l (out more : list string) (v : string) :
  names out v = true -> names (out ++ more) v = true.
Proof.
  unfold names. rewrite existsb_app. now intros ->.
Qed.

(** With a required variable missing, the start-up code exits with
    status 1 in both places where it can notice. *)
Lemma setup_missing (env : Env) (w : World FS) (v : string) :
  In v required_variables ->
  env !! v = None ->
  setup env w =
  if JS.truthy (credentialsPath env)
  then (Exit 1, printed w (missing_report ++ failed_report))
  else (Exit 1, printed w ["GDRIVE_CREDENTIALS_PATH must be set in .env file"]).
Proof.
  intros Hin Hv. unfold setupAuthentication.
  destruct (JS.truthy (credentialsPath env)); cbn [negb].
  - rewrite (create_missing env w v Hin Hv).
    now rewrite !printed_error.
  - rewrite (printed_nil w) at 1. now rewrite printed_error.
Qed.

End Missing.

(** The claim C4 fails for the serving process when the credentials path
    is absent together with another variable: the process exits at its
    first check, and what it printed names the path only.  Here the
    refresh token is absent too, and it is not named. *)
Lemma setupAuthentication_names_only_path :
  env_without_path !! "GDRIVE_REFRESH_TOKEN" = None /\
  setupAuthentication Host.FS Host.existsSync Host.mkdirSync Host.writeFileSync
    Host.dirname Host.stringify env_without_path Host.start =
    (Exit 1, printed Host.start path_report) /\
  names path_report "GDRIVE_REFRESH_TOKEN" = false /\
  ~ (forall (env : Env) (w : World Host.FS) (v : string),
       In v required_variables ->
       env !! v = None ->
       exists out : list string,
         setupAuthentication Host.FS Host.existsSync Host.mkdirSync
           Host.writeFileSync Host.dirname Host.stringify env w =
           (Exit 1, printed w out) /\
         names out v = true).
Proof.
  split; [reflexivity|]. split; [reflexivity|]. split; [reflexivity|].
  intros H.
  destruct (H env_without_path Host.start "GDRIVE_REFRESH_TOKEN")
    as (out & Hrun & Hnames); [cbn; tauto | reflexivity |].
  assert (Hout : out = path_report).
  { apply (f_equal (fun r => w_stderr (snd r))) in Hrun. cbn in Hrun.
    now symmetry. }
  rewrite Hout in Hnames. discriminate Hnames.
Qed.

(** C4, amended. When one of the five required variables is absent from
    the environment, [createCredentialsFromEnv] returns [null]: it builds
    no record, writes no file, puts no value in place of the missing one,
    and prints on the error output one fixed report that lists the five
    names, whichever of them is absent.  [setupAuthentication] then ends
    the process with status 1 without writing a file.  When the
    credentials path is set, what the process printed is that report and
    three more lines, so it names the absent variable among the five; when
    the credentials path is itself absent or empty, the process exits
    before the report and names the credentials path and no other
    variable. *)
Theorem missing_variable_is_fatal (FS : Type)
    (existsSync : FS -> string -> bool)
    (mkdirSync : FS -> string -> FS + option string)
    (writeFileSync : FS -> string -> string -> FS + option string)
    (dirname : string -> string) (stringify : Credentials -> string)
    (env : Env) (w : World FS) (v : string) :
  In v required_variables ->
  env !! v = None ->
  createCredentialsFromEnv FS existsSync mkdirSync writeFileSync dirname
    stringify env w = (None, printed w missing_report) /\
  (forall u : string,
     In u required_variables -> names missing_report u = true) /\
  (JS.truthy (credentialsPath env) = true ->
   setupAuthentication FS existsSync mkdirSync writeFileSync dirname
     stringify env w = (Exit 1, printed w (missing_report ++ failed_report)) /\
   names (missing_report ++ failed_report) v = true) /\
  (JS.truthy (credentialsPath env) = false ->
   setupAuthentication FS existsSync mkdirSync writeFileSync dirname
     stringify env w = (Exit 1, printed w path_report) /\
   names path_report "GDRIVE_CREDENTIALS_PATH" = true /\
   forall u : string,
     In u required_variables ->
     u <> "GDRIVE_CREDENTIALS_PATH" ->
     names path_report u = false).
Proof.
  intros Hin Hv. split; [|split; [|split]].
  - now apply create_missing with (v := v).
  - apply names_missing_report.
  - intros Hpath.
    rewrite (setup_missing FS existsSync mkdirSync writeFileSync dirname
               stringify env w v Hin Hv), Hpath.
    split; [reflexivity|]. apply names_app_l. now apply names_missing_report.
  - intros Hpath.
    rewrite (setup_missing FS existsSync mkdirSync writeFileSync dirname
               stringify env w v Hin Hv), Hpath.
    split; [reflexivity|]. split; [reflexivity|].
    cbn. intros u [<- | [<- | [<- | [<- | [<- | []]]]]] Hne;
      try reflexivity. now destruct Hne.
Qed.

(** A host whose environment lacks [GDRIVE_REFRESH_TOKEN] and has the
    credentials path. *)
Lemma missing_variable_is_fatal_witness :
  In "GDRIVE_REFRESH_TOKEN" required_variables /\
  Host.env !! "GDRIVE_REFRESH_TOKEN" = None /\
  createCredentialsFromEnv Host.FS Host.existsSync Host.mkdirSync
    Host.writeFileSync Host.dirname Host.stringify Host.env Host.start =
    (None, printed Host.start missing_report) /\
  setupAuthentication Host.FS Host.existsSync Host.mkdirSync
    Host.writeFileSync Host.dirname Host.stringify Host.env Host.start =
    (Exit 1, printed Host.start (missing_report ++ failed_report)) /\
  names (missing_report ++ failed_report) "GDRIVE_REFRESH_TOKEN" = true.
Proof.
  split; [cbn; tauto|]. split; [reflexivity|].
  destruct (missing_variable_is_fatal Host.FS Host.existsSync Host.mkdirSync
              Host.writeFileSync Host.dirname Host.stringify Host.env Host.start
              "GDRIVE_REFRESH_TOKEN") as (Hcreate & _ & Hset & _);
    [cbn; tauto | reflexivity |].
  split; [exact Hcreate|]. apply Hset. reflexivity.
Defined.

(** ** The start-up code on a complete environment *)

(** With the five variables set, the credentials file is written and the
    client is returned. *)
Example setupAuthentication_full_env :
  let run :=
    setupAuthentication Host.FS Host.existsSync Host.mkdirSync
      Host.writeFileSync Host.dirname Host.stringify Host.full_env Host.start in
  (oa_credentials <$> returned (fst run)) =
    Some {| access_token := "ya29.token";
            refresh_token := "1//refresh";
            scope := "https://www.googleapis.com/auth/drive.readonly";
            token_type := "Bearer";
            expiry_date := 1700003600000 |} /\
  is_Some (w_fs (snd run) !! "/data/credentials.json") /\
  w_stdout (snd run) =
    ["Credentials successfully written to /data/credentials.json"].
Proof.
  cbn zeta. split; [reflexivity|]. split; [|reflexivity].
  vm_compute. by eexists.
Qed.

(** * Further properties of the handlers *)

(** ** The escaping loses nothing and adds one character per special *)

Lemma escape_each_inj (q1 q2 : string) :
  escape_each q1 = escape_each q2 -> q1 = q2.
Proof.
  intros H.
  pose proof (read_literal_escape_each q1 EmptyString) as H1.
  pose proof (read_literal_escape_each q2 EmptyString) as H2.
  rewrite H in H1. rewrite H1 in H2. now injection H2.
Qed.

Lemma formattedQuery_drop (q : string) :
  JS.drop_str 19 (formattedQuery q) = escapedQuery q +:+ "'".
Proof. reflexivity. Qed.

(** X1. Two queries with the same escaped form are the same query, and so
    are two queries with the same search expression. *)
Theorem escapedQuery_injective (q1 q2 : string) :
  (escapedQuery q1 = escapedQuery q2 -> q1 = q2) /\
  (formattedQuery q1 = formattedQuery q2 -> q1 = q2).
Proof.
  split.
  - rewrite !escapedQuery_escape_each. apply escape_each_inj.
  - intros H. apply (f_equal (JS.drop_str 19)) in H.
    rewrite !formattedQuery_drop, !escapedQuery_escape_each in H.
    pose proof (read_literal_escape_each q1 EmptyString) as H1.
    pose proof (read_literal_escape_each q2 EmptyString) as H2.
    change (String quote EmptyString) with "'" in H1, H2.
    rewrite H in H1. rewrite H1 in H2. now injection H2.
Qed.

Lemma escapedQuery_injective_witness :
  escapedQuery "it's" = escapedQuery "it's" /\ "it's" = "it's".
Proof.
  split; [reflexivity|].
  apply (proj1 (escapedQuery_injective "it's" "it's")). reflexivity.
Defined.

Lemma length_append (s t : string) :
  String.length (s +:+ t) = String.length s + String.length t.
Proof.
  induction s as [|a s IH]; [reflexivity|].
  rewrite append_cons. cbn [String.length]. now rewrite IH.
Qed.

Lemma escape_each_length (q : string) :
  String.length (escape_each q) = String.length q + specials q.
Proof.
  induction q as [|a q IH]; [reflexivity|].
  cbn [escape_each specials]. rewrite length_append, IH. unfold escape_char.
  destruct (Ascii.eqb a backslash); [cbn [String.length orb]; lia|].
  destruct (Ascii.eqb a quote); cbn [String.length orb]; lia.
Qed.

Lemma escape_each_plain (q : string) :
  specials q = 0 -> escape_each q = q.
Proof.
  induction q as [|a q IH]; [reflexivity|].
  cbn [escape_each specials]. unfold escape_char.
  destruct (Ascii.eqb a backslash); [discriminate|].
  destruct (Ascii.eqb a quote); [discriminate|].
  cbn [orb Nat.add]. rewrite append_cons, append_empty. intros H. now rewrite IH.
Qed.

(** X2. The escaped query is longer than the query by the number of its
    backslashes and single quotes, so at most twice as long, and it is the
    query itself exactly when the query has neither. *)
Theorem escapedQuery_length (q : string) :
  String.length (escapedQuery q) = String.length q + specials q /\
  String.length (escapedQuery q) <= 2 * String.length q /\
  (escapedQuery q = q <-> specials q = 0).
Proof.
  rewrite escapedQuery_escape_each.
  pose proof (escape_each_length q) as Hlen.
  assert (Hle : specials q <= String.length q).
  { clear Hlen. induction q as [|a q IH]; cbn [specials String.length]; [lia|].
    destruct (_ || _); lia. }
  split; [exact Hlen|]. split; [lia|]. split.
  - intros H. rewrite H in Hlen. lia.
  - apply escape_each_plain.
Qed.

Lemma escapedQuery_length_witness :
  specials "budget 2024" = 0 /\ escapedQuery "budget 2024" = "budget 2024".
Proof.
  split; [reflexivity|].
  apply (proj2 (proj2 (proj2 (escapedQuery_length "budget 2024")))).
  reflexivity.
Defined.

(** ** The call-tool handler on other arguments and replies *)

(** X3. A [query] that is not a string never reaches Drive: [null],
    [false] and [0] are rejected like a missing query, and [true], a
    non-zero number, an array or an object make the handler throw a
    [TypeError], because only strings have [replace]. *)
Theorem callTool_query_not_a_string (drive : Drive) (request : CallToolRequest)
    (v : JSValue) (log : Log) :
  ct_name request = "search" ->
  arguments_query request = Some v ->
  (forall s : string, v <> JStr s) ->
  callTool drive request log =
  (Throw (if truthy_value (Some v)
          then TypeError "userQuery.replace is not a function"
          else Error "Query parameter is required"),
   log).
Proof.
  intros Hname Hq Hv. unfold callTool. rewrite eqb_case, Hq by assumption.
  destruct v as [| b | n | s |]; try reflexivity.
  - now destruct b.
  - cbn [truthy_value]. now destruct (negb (Z.eqb n 0)).
  - now destruct (Hv s).
Qed.

Lemma callTool_query_not_a_string_witness :
  callTool Demo.drive (Demo.search (JNum 42)) [] =
    (Throw (TypeError "userQuery.replace is not a function"), []) /\
  callTool Demo.drive (Demo.search JNull) [] =
    (Throw (Error "Query parameter is required"), []).
Proof.
  split.
  - apply (callTool_query_not_a_string Demo.drive (Demo.search (JNum 42))
             (JNum 42) []); [reflexivity | reflexivity | discriminate].
  - apply (callTool_query_not_a_string Demo.drive (Demo.search JNull)
             JNull []); [reflexivity | reflexivity | discriminate].
Defined.

(** X4. When Drive resolves a search with an empty list of files, or with
    no list at all, the summary is [Found 0 files:] followed by a line
    feed and nothing else, and it is not an error. *)
Theorem callTool_no_match (drive : Drive) (request : CallToolRequest)
    (q : string) (res : FileList) (log : Log) :
  ct_name request = "search" ->
  arguments_query request = Some (JStr q) ->
  q <> "" ->
  files_list drive (search_params q) = Resolved res ->
  fl_files res = None \/ fl_files res = Some [] ->
  callTool drive request log =
  (Return {| content := [ {| ci_type := "text";
                             ci_text := "Found 0 files:" +:+ JS.nl |} ];
             isError := false |},
   log ++ [CList (search_params q)]).
Proof.
  intros Hname Hq Hne Hlist Hfiles.
  rewrite (callTool_search drive request q log Hname Hq Hne), Hlist.
  now destruct Hfiles as [-> | ->].
Qed.

(** X5. The catalog of the list-tools handler and the dispatch of the
    call-tool handler agree: listing the tools sends nothing to Drive,
    and a call is answered with [Tool not found] exactly when its name is
    not in the catalog.  The one argument the catalog requires is the one
    whose absence the call-tool handler rejects. *)
Theorem listTools_callTool_agree (drive : Drive) (request : CallToolRequest)
    (log : Log) :
  exists catalog : ListToolsResult,
    (forall log0 : Log, listTools log0 = (Return catalog, log0)) /\
    (fst (callTool drive request log) = Throw (Error "Tool not found") <->
     ~ In (ct_name request) (List.map t_name (tools catalog))) /\
    (forall tool : Tool,
       In tool (tools catalog) ->
       forall argument : string,
         In argument (is_required (t_inputSchema tool)) ->
         ct_name request = t_name tool ->
         match ct_arguments request with
         | Some args => args !! argument = None
         | None => True
         end ->
         fst (callTool drive request log) =
         Throw (Error "Query parameter is required")).
Proof.
  eexists. split; [reflexivity|]. cbn [tools List.map t_name]. split.
  - split.
    + intros Hthrow [Hname | []]. symmetry in Hname. revert Hthrow.
      unfold callTool. rewrite eqb_case by assumption.
      destruct (negb _); [discriminate|].
      destruct (arguments_query request) as [[| | |q|]|]; try discriminate.
      unfold bind, await, ret. now destruct (files_list _ _).
    + intros Hname. rewrite callTool_unknown; [reflexivity|].
      intros Heq. apply Hname. now left.
  - intros tool [<- | []] argument [<- | []] Hname Habsent.
    cbn [t_name] in Hname.
    rewrite callTool_falsy; [reflexivity | assumption |].
    unfold arguments_query. destruct (ct_arguments request); [|reflexivity].
    now rewrite Habsent.
Qed.

Lemma listTools_callTool_agree_witness :
  exists catalog : ListToolsResult,
    List.map t_name (tools catalog) = ["search"] /\
    fst (callTool Demo.drive {| ct_name := "delete"; ct_arguments := None |} []) =
      Throw (Error "Tool not found").
Proof.
  destruct (listTools_callTool_agree Demo.drive
              {| ct_name := "delete"; ct_arguments := None |} [])
    as (catalog & Hlist & Hiff & _).
  exists catalog. specialize (Hlist []). injection Hlist as <-.
  split; [reflexivity|]. apply Hiff. cbn. intros [H | []]. discriminate H.
Defined.

Lemma callTool_no_match_witness :
  callTool Sample.empty (Demo.search (JStr "budget")) [] =
  (Return {| content := [ {| ci_type := "text";
                             ci_text := "Found 0 files:" +:+ JS.nl |} ];
             isError := false |},
   [CList (search_params "budget")]).
Proof.
  apply (callTool_no_match Sample.empty (Demo.search (JStr "budget")) "budget"
           {| fl_files := Some []; fl_nextPageToken := None |} []);
    solve [reflexivity | discriminate | now right].
Defined.

(** ** What the read handler sends to Drive *)

Lemma readResource_calls (drive : Drive) (buffer : Buffer) (uri : string)
    (log : Log) :
  exists calls : list Call,
    snd (readResource drive buffer {| rr_uri := uri |} log) = log ++ calls /\
    (calls = [CGet (fileId uri) "mimeType"] /\
     (exists reason, files_get drive (fileId uri) "mimeType" = Rejects reason) \/
     (exists (file : FileMeta) (more : Call),
        files_get drive (fileId uri) "mimeType" = Resolved file /\
        calls = [CGet (fileId uri) "mimeType"; more] /\
        more = if in_family (fm_mimeType file)
               then CExport (fileId uri) (exportMimeType (fm_mimeType file))
               else CGetMedia (fileId uri))).
Proof.
  destruct (files_get drive (fileId uri) "mimeType") as [file|reason] eqn:Hget.
  - destruct (in_family (fm_mimeType file)) eqn:Hfam.
    + rewrite (readResource_family drive buffer uri file log Hget Hfam).
      cbn zeta. eexists. split.
      * destruct (files_export _ _ _); reflexivity.
      * right. exists file. eexists. rewrite Hfam. eauto.
    + rewrite (readResource_regular drive buffer uri file log Hget Hfam).
      cbn zeta. eexists. split.
      * destruct (files_get_media _ _); reflexivity.
      * right. exists file. eexists. rewrite Hfam. eauto.
  - rewrite (readResource_rejected drive buffer uri reason log Hget).
    eexists. split; [reflexivity|]. left. eauto.
Qed.



(** X8. For a file outside the native-document family whose download
    resolves, the read returns one element with the uri of the request as
    it was given.  Its [mimeType] is the one of the metadata, or
    [application/octet-stream] when the metadata has none or an empty one.
    The bytes are returned decoded in [text] when that [mimeType] starts
    with [text/] or is [application/json], and as base64 in [blob]
    otherwise; a file without [mimeType] is always a [blob]. *)
Theorem readResource_regular_payload (drive : Drive) (buffer : Buffer)
    (uri : string) (file : FileMeta) (data : list Byte.byte) (log : Log) :
  files_get drive (fileId uri) "mimeType" = Resolved file ->
  in_family (fm_mimeType file) = false ->
  files_get_media drive (fileId uri) = Resolved data ->
  exists c : Contents,
    fst (readResource drive buffer {| rr_uri := uri |} log) =
      Return {| contents := [c] |} /\
    c_uri c = uri /\
    (forall m : string,
       fm_mimeType file = Some m -> m <> "" -> c_mimeType c = m) /\
    (fm_mimeType file = None \/ fm_mimeType file = Some "" ->
     c_mimeType c = "application/octet-stream" /\
     c_text c = None /\ c_blob c = Some (toString_base64 buffer data)) /\
    (JS.startsWith (c_mimeType c) "text/" = true \/
     c_mimeType c = "application/json" ->
     c_text c = Some (toString_utf8 buffer data) /\ c_blob c = None) /\
    (JS.startsWith (c_mimeType c) "text/" = false ->
     c_mimeType c <> "application/json" ->
     c_text c = None /\ c_blob c = Some (toString_base64 buffer data)).
Proof.
  intros Hget Hfam Hmedia.
  rewrite (readResource_regular drive buffer uri file log Hget Hfam), Hmedia.
  cbn zeta. cbn [fst].
  set (m := JS.or_else (fm_mimeType file) "application/octet-stream").
  assert (Hset : forall s, fm_mimeType file = Some s -> s <> "" -> m = s).
  { intros s Hs Hne. subst m. rewrite Hs. now apply or_else_set. }
  assert (Hunset : fm_mimeType file = None \/ fm_mimeType file = Some "" ->
                   m = "application/octet-stream").
  { subst m. now intros [-> | ->]. }
  destruct (JS.startsWith m "text/") eqn:Htext; cbn [orb].
  - eexists. split; [reflexivity|]. cbn [c_uri c_mimeType c_text c_blob].
    split; [reflexivity|]. split; [exact Hset|]. split; [|split].
    + intros Hu. apply Hunset in Hu. rewrite Hu in Htext. discriminate.
    + now intros _.
    + intros Hf. congruence.
  - destruct (String.eqb m "application/json") eqn:Hjson.
    + apply String.eqb_eq in Hjson.
      eexists. split; [reflexivity|]. cbn [c_uri c_mimeType c_text c_blob].
      split; [reflexivity|]. split; [exact Hset|]. split; [|split].
      * intros Hu. apply Hunset in Hu. rewrite Hu in Hjson. discriminate.
      * now intros _.
      * intros _ Hne. contradiction.
    + apply String.eqb_neq in Hjson.
      eexists. split; [reflexivity|]. cbn [c_uri c_mimeType c_text c_blob].
      split; [reflexivity|]. split; [exact Hset|]. split; [|split].
      * intros Hu. now split; [apply Hunset|].
      * intros [Ht | Hj]; [congruence | contradiction].
      * now intros _ _.
Qed.

Lemma readResource_regular_payload_witness :
  exists c : Contents,
    fst (readResource Demo.drive Demo.buffer {| rr_uri := "gdrive:///notes1" |} []) =
      Return {| contents := [c] |} /\
    c_mimeType c = "text/plain" /\ c_text c = Some "notes" /\ c_blob c = None.
Proof.
  destruct (readResource_regular_payload Demo.drive Demo.buffer
              "gdrive:///notes1" {| fm_mimeType := Some "text/plain" |}
              (String.list_byte_of_string "notes") [] eq_refl eq_refl eq_refl)
    as (c & Hrun & _ & Hmime & _ & Htext & _).
  exists c. split; [exact Hrun|].
  assert (Hm : c_mimeType c = "text/plain") by (apply Hmime; [reflexivity | discriminate]).
  split; [exact Hm|]. apply Htext. left. now rewrite Hm.
Defined.

(** ** The listed resources *)

(** The resource that the list handler makes of a file. *)
Lemma listResources_returns (drive : Drive) (request : ListResourcesRequest)
    (log log' : Log) (result : ListResourcesResult) :
  listResources drive request log = (Return result, log') ->
  exists (params : ListParams) (res : FileList),
    files_list drive params = Resolved res /\
    log' = log ++ [CList params] /\
    lp_pageSize params = 10%Z /\
    resources result =
      List.map
        (fun file =>
           {| r_uri := "gdrive:///" +:+ JS.interp (f_id file);
              r_mimeType := JS.or_else (f_mimeType file) "application/octet-stream";
              r_name := JS.or_else (f_name file) "Unknown" |})
        (match fl_files res with
         | Some files => files
         | None => []
         end).
Proof.
  rewrite listResources_run. cbn zeta.
  destruct (files_list _ _) as [res|] eqn:Hlist; [|discriminate].
  intros [= <- <-]. eauto 10.
Qed.

(** X7. When a listing succeeds, the resources are the files of the reply,
    one for one and in the same order (none when the reply has no list),
    and every resource has a uri that starts with [gdrive:///], a
    non-empty [mimeType] and a non-empty [name]. *)
Theorem listResources_resources (drive : Drive) (request : ListResourcesRequest)
    (log log' : Log) (result : ListResourcesResult) :
  listResources drive request log = (Return result, log') ->
  exists (params : ListParams) (res : FileList),
    files_list drive params = Resolved res /\
    log' = log ++ [CList params] /\
    List.length (resources result) =
      match fl_files res with
      | Some files => List.length files
      | None => 0
      end /\
    List.map r_name (resources result) =
      List.map (fun file => JS.or_else (f_name file) "Unknown")
        (match fl_files res with
         | Some files => files
         | None => []
         end) /\
    Forall (fun r => JS.startsWith (r_uri r) "gdrive:///" = true /\
                     JS.truthy_str (r_mimeType r) = true /\
                     JS.truthy_str (r_name r) = true)
           (resources result).
Proof.
  intros Hrun.
  destruct (listResources_returns drive request log log' result Hrun)
    as (params & res & Hlist & Hlog & _ & ->).
  exists params, res. split; [exact Hlist|]. split; [exact Hlog|]. split; [|split].
  - rewrite length_map. now destruct (fl_files res).
  - now rewrite map_map.
  - apply Forall_map, Forall_forall. intros file _. cbn. split; [|split].
    + now destruct (JS.interp (f_id file)).
    + now apply or_else_truthy.
    + now apply or_else_truthy.
Qed.

Lemma listResources_resources_witness :
  exists (params : ListParams) (res : FileList),
    files_list Demo.drive params = Resolved res /\
    List.length (resources Sample.first_page) =
      match fl_files res with
      | Some files => List.length files
      | None => 0
      end.
Proof.
  destruct (listResources_resources Demo.drive (list_request None) []
              [CList (list_params None)] Sample.first_page eq_refl)
    as (params & res & Hlist & _ & Hlen & _).
  now exists params, res.
Defined.

(** X6. Listing and reading compose: for every file of a successful
    listing that has an id, the resource at the same position has the uri
    [gdrive:///<id>], and a read of that uri asks Drive first for the
    metadata of exactly that id.  A file without id is listed as
    [gdrive:///undefined]. *)
Theorem listed_resource_reads_its_file (drive : Drive) (buffer : Buffer)
    (request : ListResourcesRequest) (log log' : Log)
    (result : ListResourcesResult) :
  listResources drive request log = (Return result, log') ->
  exists (params : ListParams) (res : FileList),
    files_list drive params = Resolved res /\
    log' = log ++ [CList params] /\
    forall (files : list File) (i : nat) (file : File),
      fl_files res = Some files ->
      nth_error files i = Some file ->
      exists r : Resource,
        nth_error (resources result) i = Some r /\
        (f_id file = None -> r_uri r = "gdrive:///undefined") /\
        (forall id : string,
           f_id file = Some id ->
           r_uri r = "gdrive:///" +:+ id /\
           fileId (r_uri r) = id /\
           forall log0 : Log,
           exists rest : list Call,
             snd (readResource drive buffer {| rr_uri := r_uri r |} log0) =
             log0 ++ CGet id "mimeType" :: rest).
Proof.
  intros Hrun.
  destruct (listResources_returns drive request log log' result Hrun)
    as (params & res & Hlist & Hlog & _ & ->).
  exists params, res. split; [exact Hlist|]. split; [exact Hlog|].
  intros files i file -> Hnth.
  eexists. split; [exact (map_nth_error _ _ _ Hnth)|]. cbn [r_uri]. split.
  - now intros ->.
  - intros id ->. cbn [JS.interp]. split; [reflexivity|].
    rewrite fileId_scheme. split; [reflexivity|]. intros log0.
    destruct (readResource_calls drive buffer ("gdrive:///" +:+ id) log0)
      as (calls & -> & [[-> _] | (f & more & _ & -> & _)]);
      rewrite fileId_scheme; eauto.
Qed.

Lemma listed_resource_reads_its_file_witness :
  listResources Demo.drive (list_request None) [] =
    (Return Sample.first_page, [CList (list_params None)]) /\
  exists (params : ListParams) (res : FileList),
    files_list Demo.drive params = Resolved res.
Proof.
  split; [reflexivity|].
  destruct (listed_resource_reads_its_file Demo.drive Demo.buffer
              (list_request None) [] [CList (list_params None)]
              Sample.first_page eq_refl)
    as (params & res & Hlist & _).
  now exists params, res.
Defined.

(** ** What the process runs *)

Lemma args_include_In (args : list string) (a : string) :
  args_include args a = true <-> In a args.
Proof.
  unfold args_include. rewrite existsb_exists. split.
  - intros (x & Hin & Heq). apply String.eqb_eq in Heq. now subst.
  - intros Hin. exists a. split; [exact Hin | apply String.eqb_refl].
Qed.

Lemma transport_is_Some (env : Env) (value : string) :
  transport_is env value = true <-> env !! "MCP_TRANSPORT" = Some value.
Proof.
  unfold transport_is. destruct (env !! "MCP_TRANSPORT") as [v|].
  - rewrite String.eqb_eq. split; congruence.
  - split; discriminate.
Qed.

(** X10. The entry point picks one of four modes by a fixed priority: the
    [auth] argument wins over everything; otherwise the push channel is
    chosen by [--sse] or by [MCP_TRANSPORT=sse], even when [--websocket]
    is given too; otherwise the socket server by [--websocket] or
    [MCP_TRANSPORT=websocket]; and the pipe server is what is left. *)
Theorem main_priority (args : list string) (env : Env) :
  let sse := In "--sse" args \/ env !! "MCP_TRANSPORT" = Some "sse" in
  let websocket :=
    In "--websocket" args \/ env !! "MCP_TRANSPORT" = Some "websocket" in
  (main args env = AuthFlow <-> In "auth" args) /\
  (main args env = SSEServer <-> ~ In "auth" args /\ sse) /\
  (main args env = WebSocketServer <->
   ~ In "auth" args /\ ~ sse /\ websocket) /\
  (main args env = StdioServer <->
   ~ In "auth" args /\ ~ sse /\ ~ websocket).
Proof.
  cbn zeta. unfold main.
  pose proof (args_include_In args "auth") as Ha.
  pose proof (args_include_In args "--sse") as Hs.
  pose proof (transport_is_Some env "sse") as Hes.
  pose proof (args_include_In args "--websocket") as Hw.
  pose proof (transport_is_Some env "websocket") as Hew.
  destruct (args_include args "auth"), (args_include args "--sse"),
    (transport_is env "sse"), (args_include args "--websocket"),
    (transport_is env "websocket"); cbn [orb];
    intuition (discriminate || auto).
Qed.

Lemma main_priority_witness :
  In "--sse" ["--websocket"; "--sse"] /\
  main ["--websocket"; "--sse"] ∅ = SSEServer.
Proof.
  split; [cbn; tauto|].
  apply (proj1 (proj2 (main_priority ["--websocket"; "--sse"] ∅))).
  split; [|cbn; tauto].
  cbn. intros [H | [H | []]]; discriminate H.
Defined.

(** ** The start-up code in all its cases *)

Section StartupCases.

Variable FS : Type.
Variable existsSync : FS -> string -> bool.
Variable mkdirSync : FS -> string -> FS + option string.
Variable writeFileSync : FS -> string -> string -> FS + option string.
Variable dirname : string -> string.
Variable stringify : Credentials -> string.

Local Abbreviation create :=
  (createCredentialsFromEnv FS existsSync mkdirSync writeFileSync dirname
     stringify).
Local Abbreviation setup :=
  (setupAuthentication FS existsSync mkdirSync writeFileSync dirname stringify).
Local Abbreviation write :=
  (write_credentials FS existsSync mkdirSync writeFileSync dirname stringify).

Lemma create_not_all_set (env : Env) (w : World FS) :
  all_set env = false ->
  create env w = (None, printed w missing_report).
Proof.
  intros Hset. unfold createCredentialsFromEnv, credentialsPath.
  unfold all_set in Hset. cbn [required_variables List.forallb] in Hset.
  destruct (JS.truthy (env !! "GDRIVE_ACCESS_TOKEN")),
    (JS.truthy (env !! "GDRIVE_REFRESH_TOKEN")),
    (JS.truthy (env !! "GDRIVE_CLIENT_ID")),
    (JS.truthy (env !! "GDRIVE_CLIENT_SECRET")),
    (JS.truthy (env !! "GDRIVE_CREDENTIALS_PATH"));
    try discriminate Hset; cbn [negb orb]; f_equal;
    rewrite (printed_nil FS w) at 1; now rewrite !printed_error.
Qed.

Lemma create_all_set (env : Env) (w : World FS) :
  all_set env = true ->
  create env w =
  let credentials := credentials_of env (w_now w) in
  let path := JS.interp (credentialsPath env) in
  match write path credentials (w_fs w) with
  | (fs, None) =>
      (Some credentials,
       console_log FS ("Credentials successfully written to " +:+ path)
         (set_fs FS fs w))
  | (fs, Some thrown) =>
      (None,
       console_error FS
         ("Error writing credentials file: " +:+ JS.or_else thrown "Unknown error")
         (set_fs FS fs w))
  end.
Proof.
  intros Hset. unfold createCredentialsFromEnv, credentialsPath.
  unfold all_set in Hset. cbn [required_variables List.forallb] in Hset.
  destruct (JS.truthy (env !! "GDRIVE_ACCESS_TOKEN")),
    (JS.truthy (env !! "GDRIVE_REFRESH_TOKEN")),
    (JS.truthy (env !! "GDRIVE_CLIENT_ID")),
    (JS.truthy (env !! "GDRIVE_CLIENT_SECRET")),
    (JS.truthy (env !! "GDRIVE_CREDENTIALS_PATH"));
    try discriminate Hset. reflexivity.
Qed.

Lemma all_set_each (env : Env) (v : string) :
  all_set env = true -> In v required_variables -> JS.truthy (env !! v) = true.
Proof.
  unfold all_set. rewrite forallb_forall. intros H Hin. now apply H.
Qed.

Lemma all_set_path (env : Env) :
  all_set env = true -> JS.truthy (credentialsPath env) = true.
Proof.
  intros Hset. apply (all_set_each env "GDRIVE_CREDENTIALS_PATH" Hset).
  cbn. tauto.
Qed.

Lemma not_all_set (env : Env) (v : string) :
  In v required_variables -> JS.truthy (env !! v) = false -> all_set env = false.
Proof.
  intros Hin Hv. destruct (all_set env) eqn:Hset; [|reflexivity].
  now rewrite (all_set_each env v Hset Hin) in Hv.
Qed.

(** X11. A required variable that is set to the empty string counts as
    missing: [createCredentialsFromEnv] returns [null] after the report
    of the five names, nothing is written, and [setupAuthentication] ends
    the process with status 1. *)
Theorem empty_variable_is_missing (env : Env) (w : World FS) (v : string) :
  In v required_variables ->
  env !! v = None \/ env !! v = Some "" ->
  create env w = (None, printed w missing_report) /\
  exists out : list string, setup env w = (Exit 1, printed w out).
Proof.
  intros Hin Hv.
  assert (Hfalsy : JS.truthy (env !! v) = false) by now destruct Hv as [-> | ->].
  pose proof (create_not_all_set env w (not_all_set env v Hin Hfalsy)) as Hcreate.
  split; [exact Hcreate|].
  unfold setupAuthentication.
  destruct (JS.truthy (credentialsPath env)); cbn [negb].
  - rewrite Hcreate. rewrite !printed_error. eauto.
  - exists ["GDRIVE_CREDENTIALS_PATH must be set in .env file"]. reflexivity.
Qed.

(** X12. With the five variables set to non-empty values and a file
    system that accepts the write, [createCredentialsFromEnv] returns a
    record with the two tokens of the environment, the read-only Drive
    scope, the type [Bearer] and an expiry one hour after the current
    time; the record holds neither the client id nor the client secret.
    The file system is the one after the write, one line is printed on
    the standard output and none on the error output. *)
Theorem createCredentials_success (env : Env) (w : World FS)
    (access refresh path : string) (fs : FS) :
  all_set env = true ->
  env !! "GDRIVE_ACCESS_TOKEN" = Some access ->
  env !! "GDRIVE_REFRESH_TOKEN" = Some refresh ->
  env !! "GDRIVE_CREDENTIALS_PATH" = Some path ->
  write path (credentials_of env (w_now w)) (w_fs w) = (fs, None) ->
  create env w =
  (Some {| access_token := access;
           refresh_token := refresh;
           scope := "https://www.googleapis.com/auth/drive.readonly";
           token_type := "Bearer";
           expiry_date := w_now w + 3600000 |},
   {| w_fs := fs;
      w_stdout := w_stdout w ++ ["Credentials successfully written to " +:+ path];
      w_stderr := w_stderr w;
      w_now := w_now w |}).
Proof.
  intros Hset Ha Hr Hp Hwrite. rewrite (create_all_set env w Hset). cbn zeta.
  unfold credentialsPath. rewrite Hp. cbn [JS.interp]. rewrite Hwrite.
  unfold credentials_of. now rewrite Ha, Hr.
Qed.

(** X13. With the five variables set, a file system that refuses to make
    the directory or to write the file makes [createCredentialsFromEnv]
    return [null] after one line on the error output, which carries the
    message of the error, or [Unknown error] when it has none; and
    [setupAuthentication] ends the process with status 1. *)
Theorem createCredentials_write_failure (env : Env) (w : World FS)
    (fs : FS) (thrown : option string) :
  all_set env = true ->
  write (JS.interp (credentialsPath env)) (credentials_of env (w_now w)) (w_fs w) =
    (fs, Some thrown) ->
  create env w =
    (None,
     {| w_fs := fs;
        w_stdout := w_stdout w;
        w_stderr := w_stderr w ++
          ["Error writing credentials file: " +:+ JS.or_else thrown "Unknown error"];
        w_now := w_now w |}) /\
  fst (setup env w) = Exit 1.
Proof.
  intros Hset Hwrite.
  assert (Hcreate : create env w =
    (None,
     {| w_fs := fs;
        w_stdout := w_stdout w;
        w_stderr := w_stderr w ++
          ["Error writing credentials file: " +:+ JS.or_else thrown "Unknown error"];
        w_now := w_now w |})).
  { rewrite (create_all_set env w Hset). cbn zeta. now rewrite Hwrite. }
  split; [exact Hcreate|].
  unfold setupAuthentication.
  rewrite (all_set_path env Hset). cbn [negb]. now rewrite Hcreate.
Qed.

(** X14. [setupAuthentication] never throws.  It returns the client
    exactly when the five variables are set to non-empty values and the
    credentials file could be written, and ends the process with status 1
    otherwise.  The client it returns has the client id and secret of the
    environment, the redirect [http://localhost] and the record that was
    written.  Its last check is never the one that fails: the line about
    [GDRIVE_CLIENT_ID] and [GDRIVE_CLIENT_SECRET] is never printed. *)
Theorem setupAuthentication_cases (env : Env) (w : World FS) :
  let ok :=
    all_set env &&
    match write (JS.interp (credentialsPath env))
                (credentials_of env (w_now w)) (w_fs w) with
    | (_, None) => true
    | (_, Some _) => false
    end in
  fst (setup env w) =
    (if ok
     then Return {| oa_client_id := JS.interp (env !! "GDRIVE_CLIENT_ID");
                    oa_client_secret := JS.interp (env !! "GDRIVE_CLIENT_SECRET");
                    oa_redirect := "http://localhost";
                    oa_credentials := credentials_of env (w_now w) |}
     else Exit 1) /\
  exists out : list string,
    w_stderr (snd (setup env w)) = w_stderr w ++ out /\
    ~ In "GDRIVE_CLIENT_ID and GDRIVE_CLIENT_SECRET must be set in .env file" out.
Proof.
  cbn zeta. unfold setupAuthentication.
  destruct (all_set env) eqn:Hset; cbn [andb].
  - rewrite (all_set_path env Hset).
    cbn [negb]. rewrite (create_all_set env w Hset). cbn zeta.
    destruct (write _ _ _) as [fs [thrown|]].
    + split; [reflexivity|]. cbn [snd console_error set_fs w_stderr].
      eexists. split; [now rewrite <- !app_assoc|]. cbn [app In].
      intros [H | [H | [H | [H | []]]]]; discriminate H.
    + rewrite (all_set_each env "GDRIVE_CLIENT_ID" Hset) by (cbn; tauto).
      rewrite (all_set_each env "GDRIVE_CLIENT_SECRET" Hset) by (cbn; tauto).
      cbn [negb orb]. split; [reflexivity|].
      cbn [snd console_error console_log set_fs w_stderr].
      eexists. split; [reflexivity|]. intros [H | []]. discriminate H.
  - destruct (JS.truthy (credentialsPath env)); cbn [negb].
    + rewrite (create_not_all_set env w Hset). split; [reflexivity|].
      cbn [snd console_error printed w_stderr].
      eexists. split; [now rewrite <- !app_assoc|]. cbn [app In missing_report].
      intros H. repeat (destruct H as [H | H]; [discriminate H|]). exact H.
    + split; [reflexivity|]. cbn [snd console_error w_stderr].
      eexists. split; [reflexivity|]. intros [H | []]. discriminate H.
Qed.

End StartupCases.

Lemma empty_variable_is_missing_witness :
  env_with_empty_token !! "GDRIVE_REFRESH_TOKEN" = Some "" /\
  createCredentialsFromEnv Host.FS Host.existsSync Host.mkdirSync
    Host.writeFileSync Host.dirname Host.stringify env_with_empty_token
    Host.start = (None, printed Host.start missing_report).
Proof.
  split; [reflexivity|].
  apply (empty_variable_is_missing Host.FS Host.existsSync Host.mkdirSync
           Host.writeFileSync Host.dirname Host.stringify env_with_empty_token
           Host.start "GDRIVE_REFRESH_TOKEN"); [cbn; tauto | now right].
Defined.

Lemma createCredentials_success_witness :
  fst (createCredentialsFromEnv Host.FS Host.existsSync Host.mkdirSync
         Host.writeFileSync Host.dirname Host.stringify Host.full_env
         Host.start) =
  Some {| access_token := "ya29.token";
          refresh_token := "1//refresh";
          scope := "https://www.googleapis.com/auth/drive.readonly";
          token_type := "Bearer";
          expiry_date := 1700003600000 |}.
Proof.
  rewrite (createCredentials_success Host.FS Host.existsSync Host.mkdirSync
             Host.writeFileSync Host.dirname Host.stringify Host.full_env
             Host.start "ya29.token" "1//refresh" "/data/credentials.json"
             (<["/data/credentials.json" :=
                  Host.stringify (credentials_of Host.full_env 1700000000000)]> ∅)
             eq_refl eq_refl eq_refl eq_refl eq_refl).
  reflexivity.
Defined.

Lemma createCredentials_write_failure_witness :
  createCredentialsFromEnv Host.FS Host.existsSync Host.mkdirSync
    refused_write Host.dirname Host.stringify Host.full_env Host.start =
  (None,
   printed Host.start
     ["Error writing credentials file: EACCES: permission denied"]) /\
  fst (setupAuthentication Host.FS Host.existsSync Host.mkdirSync
         refused_write Host.dirname Host.stringify Host.full_env Host.start) =
  Exit 1.
Proof.
  apply (createCredentials_write_failure Host.FS Host.existsSync Host.mkdirSync
           refused_write Host.dirname Host.stringify Host.full_env Host.start
           ∅ (Some "EACCES: permission denied") eq_refl eq_refl).
Defined.

(** ** The authorization flow *)

Section Flow.

Variable FS : Type.
Variable existsSync : FS -> string -> bool.
Variable mkdirSync : FS -> string -> FS + option string.
Variable writeFileSync : FS -> string -> string -> FS + option string.
Variable unlinkSync : FS -> string -> FS + option string.
Variable dirname : string -> string.
Variable join : string -> string -> string.
Variable stringify_config : OAuthConfig -> string.
Variable stringify_tokens : AuthCredentials -> string.
Variable authenticate : FS -> string -> list string -> Reply AuthCredentials.

Local Abbreviation flow :=
  (authenticateAndSaveCredentials FS existsSync mkdirSync writeFileSync
     unlinkSync dirname join stringify_config stringify_tokens authenticate).
Local Abbreviation try_block :=
  (auth_try FS existsSync mkdirSync writeFileSync unlinkSync dirname
     stringify_config stringify_tokens authenticate).

(** The temporary descriptor of the flow. *)
Local Abbreviation temp env :=
  (join (dirname (JS.interp (credentialsPath env))) "temp-oauth.json").

Ltac break_match :=
  match goal with
  | |- context [match ?x with _ => _ end] => destruct x eqn:?
  end.

(** X15. The flow ends the process with status 1 exactly when the client
    id, the client secret or the credentials path is missing or empty; the
    two tokens are not needed.  In that case it has touched no file: it
    printed its first line and the list of the three names, and nothing
    else. *)
Theorem auth_flow_missing_config (env : Env) (w : World FS) :
  (process_fatal (fst (flow env w)) = true <->
   exists v : string, In v flow_variables /\ JS.truthy (env !! v) = false) /\
  (process_fatal (fst (flow env w)) = true ->
   flow env w =
   (Exit 1,
    {| w_fs := w_fs w;
       w_stdout := w_stdout w ++ ["Launching auth flow…"];
       w_stderr := w_stderr w ++ flow_report;
       w_now := w_now w |})).
Proof.
  unfold authenticateAndSaveCredentials, credentialsPath. cbn zeta.
  destruct (JS.truthy (env !! "GDRIVE_CLIENT_ID")) eqn:Hid;
  destruct (JS.truthy (env !! "GDRIVE_CLIENT_SECRET")) eqn:Hsecret;
  destruct (JS.truthy (env !! "GDRIVE_CREDENTIALS_PATH")) eqn:Hpath;
  cbn [negb orb].
  2-8: split;
    [ split; [intros _ | reflexivity]
    | intros _; unfold console_error, console_log; cbn;
      now rewrite <- !app_assoc ].
  2: exists "GDRIVE_CREDENTIALS_PATH"; cbn; tauto.
  2, 3: exists "GDRIVE_CLIENT_SECRET"; cbn; tauto.
  2-5: exists "GDRIVE_CLIENT_ID"; cbn; tauto.
  assert (Hrun : forall o : Outcome unit * World FS,
            (o = match try_block (JS.interp (env !! "GDRIVE_CREDENTIALS_PATH"))
                         (join (dirname (JS.interp (env !! "GDRIVE_CREDENTIALS_PATH")))
                            "temp-oauth.json")
                         {| web_client_id := JS.interp (env !! "GDRIVE_CLIENT_ID");
                            web_client_secret :=
                              JS.interp (env !! "GDRIVE_CLIENT_SECRET");
                            web_redirect_uris := ["http://localhost"] |}
                         (console_log FS "Launching auth flow…" w) with
                 | (None, w') => (Return tt, w')
                 | (Some error, w') =>
                     if existsSync (w_fs w')
                          (join (dirname (JS.interp (env !! "GDRIVE_CREDENTIALS_PATH")))
                             "temp-oauth.json")
                     then
                       match unlinkSync (w_fs w')
                               (join (dirname (JS.interp (env !! "GDRIVE_CREDENTIALS_PATH")))
                                  "temp-oauth.json") with
                       | inl fs => (Throw error, set_fs FS fs w')
                       | inr thrown => (Throw (fs_error thrown), w')
                       end
                     else (Throw error, w')
                 end) ->
            process_fatal (fst o) = false).
  { intros o ->. repeat break_match; reflexivity. }
  rewrite (Hrun _ eq_refl). split; [|discriminate]. split; [discriminate|].
  intros (v & Hin & Hv). cbn in Hin.
  destruct Hin as [<- | [<- | [<- | []]]]; congruence.
Qed.

(** X16. The temporary OAuth descriptor does not outlive a flow that
    fails: when the flow throws, the file system it leaves is the result
    of deleting the descriptor, or the descriptor is not there, or the
    deletion itself is what failed, and then its error is the one thrown.
    A flow that returns leaves the file system that the deletion of the
    descriptor produced. *)
Theorem auth_flow_cleanup (env : Env) (w : World FS) :
  match flow env w with
  | (Return _, w') =>
      exists fs : FS, unlinkSync fs (temp env) = inl (w_fs w')
  | (Throw e, w') =>
      (exists fs : FS, unlinkSync fs (temp env) = inl (w_fs w')) \/
      existsSync (w_fs w') (temp env) = false \/
      (exists thrown : option string,
         unlinkSync (w_fs w') (temp env) = inr thrown /\ e = fs_error thrown)
  | (Exit _, w') => w_fs w' = w_fs w
  end.
Proof.
  unfold authenticateAndSaveCredentials. cbn zeta.
  destruct (_ || _); [reflexivity|].
  destruct (try_block _ _ _ _) as [[error|] w'] eqn:Htry.
  - destruct (existsSync _ _) eqn:Hexists; [|now right; left].
    destruct (unlinkSync _ _) as [fs|thrown] eqn:Hunlink.
    + left. now exists (w_fs w').
    + right. right. now exists thrown.
  - revert Htry. unfold auth_try. cbn zeta.
    repeat break_match; try discriminate; intros [= <-]; cbn; eauto.
Qed.

(** X17. When the flow returns, [authenticate] had resolved, its tokens
    were written to the credentials path before the descriptor was
    deleted, and nothing went to the error output.  The two tokens are
    printed, after the line that names the credentials file, exactly when
    both are present and non-empty. *)
Theorem auth_flow_success (env : Env) (w w' : World FS) :
  flow env w = (Return tt, w') ->
  exists (credentials : AuthCredentials) (fs2 fs3 : FS),
    authenticate fs2 (temp env)
      ["https://www.googleapis.com/auth/drive.readonly"] = Resolved credentials /\
    writeFileSync fs2 (JS.interp (credentialsPath env))
      (stringify_tokens credentials) = inl fs3 /\
    unlinkSync fs3 (temp env) = inl (w_fs w') /\
    w_stderr w' = w_stderr w /\
    w_stdout w' =
      w_stdout w ++
      [ "Launching auth flow…";
        "Credentials saved to: " +:+ JS.interp (credentialsPath env) ] ++
      (if JS.truthy (ac_access_token credentials)
          && JS.truthy (ac_refresh_token credentials)
       then token_lines credentials else []) ++
      [ "You can now run the server with: npm start" ].
Proof.
  unfold authenticateAndSaveCredentials. cbn zeta.
  destruct (_ || _); [discriminate|].
  destruct (try_block _ _ _ _) as [[error|] w1] eqn:Htry.
  - repeat break_match; discriminate.
  - intros [= <-]. revert Htry. unfold auth_try. cbn zeta.
    repeat break_match; try discriminate; intros [= <-];
      (do 3 eexists; split; [eassumption|]; split; [eassumption|];
       split; [eassumption|]; split; [reflexivity|];
       match goal with H : (_ && _) = _ |- _ => rewrite H end;
       unfold token_lines; cbn; now rewrite <- ?app_assoc).
Qed.

End Flow.

Lemma auth_flow_missing_config_witness :
  authenticateAndSaveCredentials Disk.FS Disk.existsSync Disk.mkdirSync
    Disk.writeFileSync Disk.unlinkSync Host.dirname Disk.join
    Disk.stringify_config Disk.stringify_tokens Disk.granted ∅ Disk.start =
  (Exit 1, {| w_fs := ∅;
              w_stdout := ["Launching auth flow…"];
              w_stderr := flow_report;
              w_now := 1700000000000 |}).
Proof.
  apply (proj2 (auth_flow_missing_config Disk.FS Disk.existsSync Disk.mkdirSync
                  Disk.writeFileSync Disk.unlinkSync Host.dirname Disk.join
                  Disk.stringify_config Disk.stringify_tokens Disk.granted
                  ∅ Disk.start)).
  reflexivity.
Defined.

Lemma auth_flow_success_witness :
  exists (credentials : AuthCredentials) (fs2 fs3 : Disk.FS),
    Disk.granted fs2 "/data/temp-oauth.json"
      ["https://www.googleapis.com/auth/drive.readonly"] = Resolved credentials /\
    Disk.writeFileSync fs2 "/data/credentials.json"
      (Disk.stringify_tokens credentials) = inl fs3.
Proof.
  destruct (auth_flow_success Disk.FS Disk.existsSync Disk.mkdirSync
              Disk.writeFileSync Disk.unlinkSync Host.dirname Disk.join
              Disk.stringify_config Disk.stringify_tokens Disk.granted
              Host.env Disk.start
              (snd (authenticateAndSaveCredentials Disk.FS Disk.existsSync
                      Disk.mkdirSync Disk.writeFileSync Disk.unlinkSync
                      Host.dirname Disk.join Disk.stringify_config
                      Disk.stringify_tokens Disk.granted Host.env Disk.start))
              eq_refl)
    as (credentials & fs2 & fs3 & Hauth & Hwrite & _).
  now exists credentials, fs2, fs3.
Defined.

(** On the disk, a flow that the user denies throws the rejection and
    leaves no descriptor behind, and neither does a flow that succeeds. *)
Example auth_flow_on_disk :
  let denied :=
    authenticateAndSaveCredentials Disk.FS Disk.existsSync Disk.mkdirSync
      Disk.writeFileSync Disk.unlinkSync Host.dirname Disk.join
      Disk.stringify_config Disk.stringify_tokens Disk.denied Host.env
      Disk.start in
  let granted :=
    authenticateAndSaveCredentials Disk.FS Disk.existsSync Disk.mkdirSync
      Disk.writeFileSync Disk.unlinkSync Host.dirname Disk.join
      Disk.stringify_config Disk.stringify_tokens Disk.granted Host.env
      Disk.start in
  fst denied = Throw (Rejected "access_denied") /\
  w_fs (snd denied) !! "/data/temp-oauth.json" = None /\
  w_fs (snd denied) !! "/data/credentials.json" = None /\
  fst granted = Return tt /\
  w_fs (snd granted) !! "/data/temp-oauth.json" = None /\
  w_fs (snd granted) !! "/data/credentials.json" = Some "access_token: ya29.new".
Proof. cbn zeta. repeat split; vm_compute; reflexivity. Qed.

(** ** The HTTP front ends *)

Section Http.

Variable env : Env.
Variable port_text : string.
Variable construct : option Thrown.
Variable headersSent : bool.
Variable connect : option Thrown.

Local Abbreviation sse :=
  (sse_listener env port_text construct headersSent connect).

Ltac routes method url :=
  unfold sse_listener, ws_listener;
  destruct (String.eqb method "OPTIONS") eqn:Hoptions;
  [ apply String.eqb_eq in Hoptions
  | apply String.eqb_neq in Hoptions;
    destruct (String.eqb url "/health") eqn:Hhealth;
    [ apply String.eqb_eq in Hhealth
    | apply String.eqb_neq in Hhealth;
      destruct (String.eqb url "/") eqn:Hroot;
      [ apply String.eqb_eq in Hroot
      | apply String.eqb_neq in Hroot;
        destruct (String.eqb url "/sse") eqn:Hsse;
        [ apply String.eqb_eq in Hsse
        | apply String.eqb_neq in Hsse ] ] ] ].

(** X18. Every response of the push-channel server starts with the five
    cross-origin headers, which allow any origin, and a preflight request
    is answered with status 200 and an empty body on every path: an
    [OPTIONS] request to [/sse] opens no channel. *)
Theorem sse_cors_and_preflight (method url : string) :
  (exists more : list (string * string),
     h_headers (sse method url) = sse_cors ++ more) /\
  List.hd_error (h_headers (sse method url)) =
    Some ("Access-Control-Allow-Origin", "*") /\
  (method = "OPTIONS" ->
   h_status (sse method url) = Some 200%Z /\
   h_body (sse method url) = Some NoBody /\
   h_transport (sse method url) = false).
Proof.
  routes method url; [| | | destruct construct; [destruct headersSent|] |].
  all: cbn [h_headers h_status h_body h_transport negb].
  all: split; [eexists; try reflexivity; symmetry; apply app_nil_r|].
  all: split; [reflexivity|]; intros Hm; try contradiction; now repeat split.
Qed.

(** X19. A request for [/health] that is not a preflight is answered with
    status 200 and a JSON body whose [status] is [healthy] by both HTTP
    servers, whatever the environment, the port and the state of the
    transport; nothing is asked of Drive and no channel is opened.  Only
    the exact path counts: the method does not matter. *)
Theorem health_is_always_healthy (method : string) :
  method <> "OPTIONS" ->
  (h_status (sse method "/health") = Some 200%Z /\
   body_member "status" (h_body (sse method "/health")) = Some (JsonStr "healthy") /\
   h_transport (sse method "/health") = false) /\
  (h_status (ws_listener method "/health") = Some 200%Z /\
   body_member "status" (h_body (ws_listener method "/health")) =
     Some (JsonStr "healthy") /\
   h_transport (ws_listener method "/health") = false).
Proof.
  intros Hm. unfold sse_listener, ws_listener.
  apply String.eqb_neq in Hm. rewrite Hm. cbn. now repeat split.
Qed.

(** X20. The push-channel server binds a channel to a response exactly
    for a request of the path [/sse] that is not a preflight and whose
    transport could be built.  It answers 404, with the two endpoints in
    the body, exactly for a request that is not a preflight and whose
    path is none of [/health], [/] and [/sse]; and it answers 500 exactly
    when building the transport threw before any header was sent. *)
Theorem sse_routes (method url : string) :
  (h_transport (sse method url) = true <->
   method <> "OPTIONS" /\ url = "/sse" /\ construct = None) /\
  (h_status (sse method url) = Some 404%Z <->
   method <> "OPTIONS" /\ url <> "/health" /\ url <> "/" /\ url <> "/sse") /\
  (h_status (sse method url) = Some 404%Z ->
   body_member "endpoints" (h_body (sse method url)) =
   Some (JsonObj
           [ ("sse", JsonStr ("http://localhost:" +:+ port_text +:+ "/sse"));
             ("health", JsonStr ("http://localhost:" +:+ port_text +:+ "/health")) ])) /\
  (h_status (sse method url) = Some 500%Z <->
   method <> "OPTIONS" /\ url = "/sse" /\ construct <> None /\
   headersSent = false).
Proof.
  routes method url; [| | | destruct construct; [destruct headersSent|] |].
  all: cbn [h_headers h_status h_body h_transport negb]; subst.
  all: repeat split; try discriminate; try reflexivity; try tauto;
    try (intros (H1 & H2 & H3); congruence);
    try (intros (H1 & H2 & H3 & H4); congruence).
Qed.


End Http.

Lemma sse_cors_and_preflight_witness :
  h_status (sse_listener ∅ "3000" None false None "OPTIONS" "/sse") =
    Some 200%Z /\
  h_body (sse_listener ∅ "3000" None false None "OPTIONS" "/sse") =
    Some NoBody /\
  h_transport (sse_listener ∅ "3000" None false None "OPTIONS" "/sse") = false.
Proof.
  apply (proj2 (proj2 (sse_cors_and_preflight ∅ "3000" None false None
                         "OPTIONS" "/sse"))).
  reflexivity.
Defined.

Lemma health_is_always_healthy_witness :
  h_status (sse_listener ∅ "3000" (Some ThrownOther) true None "POST" "/health") =
    Some 200%Z /\
  h_status (ws_listener "POST" "/health") = Some 200%Z.
Proof.
  destruct (health_is_always_healthy ∅ "3000" (Some ThrownOther) true None "POST")
    as [(Hsse & _) (Hws & _)]; [discriminate|].
  split; [exact Hsse | exact Hws].
Defined.

Lemma sse_routes_witness :
  h_status (sse_listener ∅ "3000" None false None "GET" "/sse?session=1") =
    Some 404%Z /\
  h_transport (sse_listener ∅ "3000" None false None "GET" "/sse") = true.
Proof.
  split.
  - apply (proj1 (proj2 (sse_routes ∅ "3000" None false None
                           "GET" "/sse?session=1"))).
    repeat split; discriminate.
  - apply (proj1 (sse_routes ∅ "3000" None false None "GET" "/sse")).
    repeat split; discriminate.
Defined.

